(** * TeleUPS: the NUT device client and the UPS monitor loop

    A shallow embedding of [nut.py] (class [NUTClient]),
    [ups_monitor.py] (class [UPSMonitor]) and [telegram_notifier.py]
    (class [TelegramNotifier]).

    - [Py]      : the fragment of the Python run time the two classes use
                  (exceptions, a state-and-exception monad, [str.split],
                  [in] on strings, [str.join], dictionaries);
    - [NUT]     : [NUTClient], over an abstract NUT server;
    - [Monitor] : [UPSMonitor], over its three injected collaborators
                  (device client, notifier, logger);
    - [Telegram] : [TelegramNotifier] of [telegram_notifier.py], over the
                  [requests] calls it makes. *)

From stdpp Require Import base strings gmap list pretty.
From Stdlib Require Import Ascii ZArith Lia.

#[local] Open Scope string_scope.
#[local] Open Scope Z_scope.

(* ===================================================================== *)
(** ** The Python fragment *)
(* ===================================================================== *)

Module Py.

(** [str] values are sequences of characters; a character of the model
    stands for a code point below 256.  [bytes] values are sequences of
    octets. *)
Abbreviation str := string (only parsing).
Abbreviation bytes := string (only parsing).

(** Exception classes.  [KeyboardInterrupt] and [SystemExit] derive from
    [BaseException] only; every other class derives from [Exception]. *)
Inductive exc_class :=
| KeyboardInterrupt
| SystemExit
| TypeError
| ValueError
| UnicodeDecodeError
| OtherException (name : str).

Record exn := Exn { exc_type : exc_class; exc_msg : str }.

(** [isinstance(e, Exception)] *)
Definition is_Exception (e : exn) : bool :=
  match exc_type e with
  | KeyboardInterrupt | SystemExit => false
  | _ => true
  end.

Definition is_KeyboardInterrupt (e : exn) : bool :=
  match exc_type e with
  | KeyboardInterrupt => true
  | _ => false
  end.

Inductive outcome (A : Type) :=
| Ok (a : A)
| Raise (e : exn).
Arguments Ok {A} a.
Arguments Raise {A} e.

(** Computations over a state [S] that return or raise. *)
Definition M (S A : Type) : Type := S → outcome A * S.

Definition ret {S A} (a : A) : M S A := λ s, (Ok a, s).
Definition raise {S A} (e : exn) : M S A := λ s, (Raise e, s).
Definition bind {S A B} (m : M S A) (k : A → M S B) : M S B :=
  λ s, match m s with
       | (Ok a, s') => k a s'
       | (Raise e, s') => (Raise e, s')
       end.
Definition of_outcome {S A} (o : outcome A) : M S A := λ s, (o, s).

(** [try: m  except Exception as e: h e] *)
Definition try_except_Exception {S A} (m : M S A) (h : exn → M S A) : M S A :=
  λ s, match m s with
       | (Ok a, s') => (Ok a, s')
       | (Raise e, s') => if is_Exception e then h e s' else (Raise e, s')
       end.

(** [try: m  except KeyboardInterrupt: h] *)
Definition try_except_KeyboardInterrupt {S A} (m : M S A) (h : M S A) : M S A :=
  λ s, match m s with
       | (Ok a, s') => (Ok a, s')
       | (Raise e, s') => if is_KeyboardInterrupt e then h s' else (Raise e, s')
       end.

(** Running a computation of a component on its part of a larger state. *)
Definition zoom {S T A} (get : T → S) (set : S → T → T) (m : M S A) : M T A :=
  λ t, match m (get t) with (r, s') => (r, set s' t) end.

(** [c.isspace()] for a single character: the code points below 256 that
    [str.split()] treats as separators. *)
Definition isspace (c : ascii) : bool :=
  let n := nat_of_ascii c in
  ((9 <=? n) && (n <=? 13) || (28 <=? n) && (n <=? 32)
   || (n =? 133) || (n =? 160))%nat.

(** [s.split()] : the maximal runs of non-whitespace characters of [s],
    in order.  [tok] is the run being read. *)
Fixpoint split_from (tok : str) (s : str) : list str :=
  match s with
  | EmptyString => if decide (tok = "") then [] else [tok]
  | String c s' =>
      if isspace c
      then (if decide (tok = "") then split_from "" s'
            else tok :: split_from "" s')
      else split_from (tok +:+ String c "") s'
  end.
Definition split (s : str) : list str := split_from "" s.

(** [sub in s] for two [str] values: [sub] occurs in [s] as a substring. *)
Fixpoint str_in (sub s : str) : bool :=
  String.prefix sub s
  || match s with
     | EmptyString => false
     | String _ s' => str_in sub s'
     end.

(** [sep.join(xs)] *)
Definition join (sep : str) (xs : list str) : str := String.concat sep xs.

(** [d.get(k, default)] *)
Definition dict_get {V} (d : gmap str V) (k : str) (dflt : V) : V :=
  default dflt (d !! k).

(** Truth value of a dictionary: true when it is not empty. *)
Definition dict_truthy {V} (d : gmap str V) : bool := bool_decide (d ≠ ∅).

(** The two built-in conversions the client relies on.  They are taken as
    given: [bytes_decode b] is [b.decode('utf-8')], which raises
    [UnicodeDecodeError] on ill-formed input, and [int s] is [int(s)] on a
    [str], which raises [ValueError] when [s] is not an integer literal. *)
Class Builtins := {
  bytes_decode : bytes → outcome str;
  int : str → outcome Z;
}.

End Py.

Import Py.

Declare Scope py_scope.
Delimit Scope py_scope with py.
Notation "x <- m ;; k" := (bind m (λ x, k))
  (at level 100, m at level 99, right associativity) : py_scope.
Notation "m ;;; k" := (bind m (λ _, k))
  (at level 100, right associativity) : py_scope.
#[local] Open Scope py_scope.

(* ===================================================================== *)
(** ** [nut.py] : the device client *)
(* ===================================================================== *)

Module NUT.

(** What the server hands back for a variable listing: the items of a
    dictionary with [bytes] keys and values, in iteration order. *)
Definition byte_dict := list (bytes * bytes).

(** The [PyNUTClient] connection object held in [self.client]. *)
Record PyNUTClient := { host : str; login : str; password : str }.

(** The methods of [PyNUTClient] the class calls, over the state [E] of
    the network and the NUT server behind it.  Each one returns or
    raises. *)
Class PyNUT (E : Type) := {
  CheckUPSAvailable : PyNUTClient → str → M E bool;
  GetRWVars : PyNUTClient → str → M E byte_dict;
  GetUPSVars : PyNUTClient → str → M E byte_dict;
  GetUPSList : PyNUTClient → M E byte_dict;
}.

(** What the client acts on: the server and the standard output. *)
Record World (E : Type) := { server : E; stdout : list str }.
Arguments server {E} w.
Arguments stdout {E} w.

Record NUTClient := { ups_name : str; client : PyNUTClient }.

Section Client.
Context `{Builtins} {E : Type} `{PyNUT E}.

Definition call {A} (op : M E A) : M (World E) A :=
  zoom server (λ e w, {| server := e; stdout := stdout w |}) op.

Definition print (line : str) : M (World E) unit :=
  λ w, (Ok tt, {| server := server w; stdout := stdout w ++ [line] |}).

(** [{key.decode('utf-8'): value.decode('utf-8') for key, value in
    byte_dict.items()}] *)
Fixpoint decode_items (items : byte_dict) (acc : gmap str str)
  : outcome (gmap str str) :=
  match items with
  | [] => Ok acc
  | (key, value) :: rest =>
      match bytes_decode key with
      | Raise e => Raise e
      | Ok k =>
          match bytes_decode value with
          | Raise e => Raise e
          | Ok v => decode_items rest (<[k := v]> acc)
          end
      end
  end.
Definition __decode_byte_dict (byte_dict : byte_dict) : outcome (gmap str str) :=
  decode_items byte_dict ∅.

(** The result is [Some] of the operation's result, or [None] (Python's
    [None]) when an [Exception] was caught. *)
Definition __handle_operation {A} (operation : M E A) : M (World E) (option A) :=
  try_except_Exception
    (a <- call operation ;; ret (Some a))
    (λ e, print ("Error occurred: " +:+ exc_msg e) ;;; ret None).

Definition is_ups_available (self : NUTClient) : M (World E) (option bool) :=
  __handle_operation (CheckUPSAvailable (client self) (ups_name self)).

(** [if response]: [None] and the empty dictionary are false. *)
Definition response_truthy (response : option byte_dict) : bool :=
  match response with
  | Some (_ :: _) => true
  | Some [] | None => false
  end.

Definition get_ups_read_write_vars (self : NUTClient) : M (World E) (gmap str str) :=
  response <- __handle_operation (GetRWVars (client self) (ups_name self)) ;;
  if response_truthy response
  then of_outcome (__decode_byte_dict (default [] response))
  else ret ∅.

Definition get_ups_vars (self : NUTClient) : M (World E) (gmap str str) :=
  response <- __handle_operation (GetUPSVars (client self) (ups_name self)) ;;
  if response_truthy response
  then of_outcome (__decode_byte_dict (default [] response))
  else ret ∅.

Definition get_ups_list (self : NUTClient) : M (World E) (gmap str str) :=
  response <- __handle_operation (GetUPSList (client self)) ;;
  if response_truthy response
  then of_outcome (__decode_byte_dict (default [] response))
  else ret ∅.

Definition get_current_power_draw (self : NUTClient) : M (World E) Z :=
  ups_vars <- get_ups_vars self ;;
  of_outcome (int (dict_get ups_vars "ups.realpower" "0")).

(** [int(x)] where [x] is what [d.get(key, 0)] gave: a [str] of the
    mapping, or the integer [0], on which [int] is the identity. *)
Definition int_of_get (x : option str) : outcome Z :=
  match x with
  | Some s => int s
  | None => Ok 0
  end.

Definition get_battery_charge_percentage (self : NUTClient) : M (World E) Z :=
  ups_vars <- get_ups_vars self ;;
  if dict_truthy ups_vars
  then of_outcome (int_of_get (ups_vars !! "battery.charge"))
  else ret 0.

Definition get_battery_charge_low_percentage (self : NUTClient) : M (World E) Z :=
  ups_rwvars <- get_ups_read_write_vars self ;;
  if dict_truthy ups_rwvars
  then of_outcome (int_of_get (ups_rwvars !! "battery.charge.low"))
  else ret 0.

(** ['OB' in ups_vars.get('ups.status') if ups_vars else False].
    [get] without a default yields [None] for an absent key, and [in]
    on [None] raises [TypeError]. *)
Definition is_ups_on_battery (self : NUTClient) : M (World E) bool :=
  ups_vars <- get_ups_vars self ;;
  if dict_truthy ups_vars then
    match ups_vars !! "ups.status" with
    | Some status => ret (str_in "OB" status)
    | None => raise (Exn TypeError "argument of type 'NoneType' is not iterable")
    end
  else ret false.

Definition is_ups_battery_low (self : NUTClient) (ignore_ob : bool) : M (World E) bool :=
  on_battery <- is_ups_on_battery self ;;
  if negb on_battery && negb ignore_ob then ret false
  else
    charge <- get_battery_charge_percentage self ;;
    low <- get_battery_charge_low_percentage self ;;
    ret (charge <=? low).

Definition status_map : gmap str str :=
  <["OL" := "On Line"]> (
  <["OB" := "On Battery"]> (
  <["LB" := "Low Battery"]> (
  <["CHRG" := "Charging"]> (
  <["DISCHRG" := "Discharging"]> (
  <["BYPS" := "Bypass"]> (
  <["OFF" := "Offline"]> (
  <["TRIM" := "SmartTrim"]> (
  <["BOOST" := "SmartBoost"]> ∅)))))))).

Definition get_ups_status (self : NUTClient) : M (World E) str :=
  ups_vars <- get_ups_vars self ;;
  if dict_truthy ups_vars then
    let status_codes := split (dict_get ups_vars "ups.status" "") in
    let status_descriptions :=
      map (λ code, dict_get status_map code "Unknown status") status_codes in
    let known_statuses :=
      filter (λ desc, desc ≠ "Unknown status") status_descriptions in
    match known_statuses with
    | _ :: _ => ret (join ", " known_statuses)
    | [] => ret "Unknown status"
    end
  else ret "Unknown status".

End Client.

End NUT.

(* ===================================================================== *)
(** ** [ups_monitor.py] : the monitor loop *)
(* ===================================================================== *)

Module Monitor.

(** [logging.INFO] *)
Definition INFO : Z := 20.

(** Line feed, for the message templates. *)
Definition nl : str := String "010"%char "".

(** The collaborators handed to [UPSMonitor.__init__] are objects known
    only by the methods the monitor calls on them; each is a record of
    methods over a world [W].  [is_ups_battery_low] takes its optional
    argument as an [option]: [None] is a call without argument, which
    leaves the choice to the callee's default. *)
Record NutClient (W : Type) := {
  is_ups_on_battery : M W bool;
  is_ups_battery_low : option bool → M W bool;
  get_battery_charge_percentage : M W Z;
  get_ups_status : M W str;
  get_current_power_draw : M W Z;
}.
Arguments is_ups_on_battery {W} _.
Arguments is_ups_battery_low {W} _ _.
Arguments get_battery_charge_percentage {W} _.
Arguments get_ups_status {W} _.
Arguments get_current_power_draw {W} _.

Record TelegramNotifier (W : Type) := {
  send_notification : str → str → M W unit;
}.
Arguments send_notification {W} _ _ _.

(** A logger object: its truth value and its [log] method. *)
Record Logger (W : Type) := {
  truthy : bool;
  log : Z → str → M W unit;
}.
Arguments truthy {W} _.
Arguments log {W} _ _ _.

(** The built-in [print] and [time.sleep]. *)
Record Runtime (W : Type) := {
  print : str → M W unit;
  sleep : Z → M W unit;
}.
Arguments print {W} _ _.
Arguments sleep {W} _ _.

Record UPSMonitor (W : Type) := {
  nut_client : NutClient W;
  last_ups_on_battery_status : bool;
  last_ups_low_battery_status : bool;
  telegram_notifier : TelegramNotifier W;
  logger : Logger W;
}.
Arguments nut_client {W} _.
Arguments last_ups_on_battery_status {W} _.
Arguments last_ups_low_battery_status {W} _.
Arguments telegram_notifier {W} _.
Arguments logger {W} _.

(** A method runs on the object [self] and on the world around it. *)
Record State (W : Type) := { self : UPSMonitor W; world : W }.
Arguments self {W} _.
Arguments world {W} _.

Section Methods.
Context {W : Type} (rt : Runtime W).

Definition on_world {A} (m : M W A) : M (State W) A :=
  zoom world (λ w st, {| self := self st; world := w |}) m.

Definition with_self {A} (f : UPSMonitor W → M (State W) A) : M (State W) A :=
  λ st, f (self st) st.

Definition set_last_ups_on_battery_status (b : bool) : M (State W) unit :=
  λ st, (Ok tt,
         {| self := {| nut_client := nut_client (self st);
                       last_ups_on_battery_status := b;
                       last_ups_low_battery_status :=
                         last_ups_low_battery_status (self st);
                       telegram_notifier := telegram_notifier (self st);
                       logger := logger (self st) |};
            world := world st |}).

Definition set_last_ups_low_battery_status (b : bool) : M (State W) unit :=
  λ st, (Ok tt,
         {| self := {| nut_client := nut_client (self st);
                       last_ups_on_battery_status :=
                         last_ups_on_battery_status (self st);
                       last_ups_low_battery_status := b;
                       telegram_notifier := telegram_notifier (self st);
                       logger := logger (self st) |};
            world := world st |}).

Definition handle_logging (level : Z) (message : str) : M (State W) unit :=
  with_self (λ self,
    if truthy (logger self)
    then on_world (log (logger self) level message)
    else on_world (print rt message)).

(** [logger or logging.getLogger(__name__)]; [getLogger] is the logger
    the [logging] module hands out. *)
Definition __init__ (getLogger : Logger W)
    (nut_client : NutClient W) (telegram_notifier : TelegramNotifier W)
    (logger : Logger W) : M W (UPSMonitor W) :=
  let self :=
    {| nut_client := nut_client;
       last_ups_on_battery_status := false;
       last_ups_low_battery_status := false;
       telegram_notifier := telegram_notifier;
       logger := if truthy logger then logger else getLogger |} in
  λ w, match handle_logging INFO "Monitor started" {| self := self; world := w |} with
       | (Ok _, st) => (Ok (Monitor.self st), world st)
       | (Raise e, st) => (Raise e, world st)
       end.

Definition status_title (title : str) : str :=
  title +:+ nl +:+ "UPS Status Information".

Definition status_msg (charge : Z) (status : str) (low : bool) (power : Z) : str :=
  ("Battery Percentage: <b>" +:+ pretty charge +:+ "%</b>" +:+ nl)
  +:+ ("Status: <b>" +:+ status +:+ "</b>" +:+ nl)
  +:+ ("Low Battery: <b>" +:+ (if low then "Yes" else "No") +:+ "</b>" +:+ nl)
  +:+ ("Power: <b>" +:+ pretty power +:+ " watt</b>").

Definition send_ups_status_notification (title : str) : M (State W) unit :=
  let title := status_title title in
  charge <- with_self (λ self, on_world (get_battery_charge_percentage (nut_client self))) ;;
  status <- with_self (λ self, on_world (get_ups_status (nut_client self))) ;;
  low <- with_self (λ self, on_world (is_ups_battery_low (nut_client self) (Some true))) ;;
  power <- with_self (λ self, on_world (get_current_power_draw (nut_client self))) ;;
  let msg := status_msg charge status low power in
  with_self (λ self, on_world (send_notification (telegram_notifier self) title msg)) ;;;
  handle_logging INFO "UPS status notification sent".

Definition handle_power_outage : M (State W) unit :=
  handle_logging INFO "UPS status changed (Power Outage)" ;;;
  send_ups_status_notification "Power outage!" ;;;
  current_battery_perc <-
    with_self (λ self, on_world (get_battery_charge_percentage (nut_client self))) ;;
  current_ups_low_battery_status <-
    with_self (λ self, on_world (is_ups_battery_low (nut_client self) None)) ;;
  (with_self (λ self,
     if current_ups_low_battery_status && negb (last_ups_low_battery_status self)
     then
       handle_logging INFO
         ("Low battery status " +:+ pretty current_battery_perc +:+ "%") ;;;
       send_ups_status_notification "Low battery!"
     else ret tt)) ;;;
  set_last_ups_low_battery_status current_ups_low_battery_status.

Definition handle_power_restoration : M (State W) unit :=
  handle_logging INFO "UPS status changed (Power Restoration)" ;;;
  send_ups_status_notification "Power restoration!".

(** One pass through the body of [while True]. *)
Definition poll_cycle : M (State W) unit :=
  current_ups_on_battery_status <-
    with_self (λ self, on_world (is_ups_on_battery (nut_client self))) ;;
  (with_self (λ self,
     if negb (last_ups_on_battery_status self) && current_ups_on_battery_status
     then handle_power_outage
     else if last_ups_on_battery_status self && negb current_ups_on_battery_status
     then handle_power_restoration
     else ret tt)) ;;;
  set_last_ups_on_battery_status current_ups_on_battery_status ;;;
  on_world (sleep rt 2).

(** [while True] has no normal exit: [poll_loop n] is the loop cut after
    [n] passes, and returns when all [n] completed. *)
Fixpoint poll_loop (cycles : nat) : M (State W) unit :=
  match cycles with
  | O => ret tt
  | S n => poll_cycle ;;; poll_loop n
  end.

Definition monitor_ups (cycles : nat) : M (State W) unit :=
  try_except_KeyboardInterrupt
    (poll_loop cycles)
    (handle_logging INFO "Script terminated by user.").

End Methods.

End Monitor.

(* ===================================================================== *)
(** ** Observing the monitor: collaborators that record their calls *)
(* ===================================================================== *)

Module Trace.
Import Monitor.

(** A call of the monitor on one of its collaborators. *)
Inductive event :=
| CallIsOnBattery
| Reading (on_battery : bool)
| CallIsBatteryLow (ignore_ob : option bool)
| CallCharge
| CallStatus
| CallPower
| CallSend (title msg : str)
| CallLog (level : Z) (msg : str)
| CallPrint (msg : str)
| CallSleep (secs : Z).

Record Traced (V : Type) := { inner : V; trace : list event }.
Arguments inner {V} _.
Arguments trace {V} _.

(** The call is recorded when it is made, then runs on the inner world. *)
Definition traced {V A} (ev : event) (m : M V A) : M (Traced V) A :=
  λ t, match m (inner t) with
       | (r, v') => (r, {| inner := v'; trace := trace t ++ [ev] |})
       end.

(** [is_ups_on_battery] is recorded with the reading it returns. *)
Definition traced_reading {V} (m : M V bool) : M (Traced V) bool :=
  λ t, match m (inner t) with
       | (Ok on_battery, v') =>
           (Ok on_battery,
            {| inner := v';
               trace := trace t ++ [CallIsOnBattery; Reading on_battery] |})
       | (Raise e, v') =>
           (Raise e, {| inner := v'; trace := trace t ++ [CallIsOnBattery] |})
       end.

Definition traced_client {V} (c : NutClient V) : NutClient (Traced V) :=
  {| is_ups_on_battery := traced_reading (is_ups_on_battery c);
     is_ups_battery_low := λ arg, traced (CallIsBatteryLow arg) (is_ups_battery_low c arg);
     get_battery_charge_percentage := traced CallCharge (get_battery_charge_percentage c);
     get_ups_status := traced CallStatus (get_ups_status c);
     get_current_power_draw := traced CallPower (get_current_power_draw c) |}.

Definition traced_notifier {V} (n : TelegramNotifier V) : TelegramNotifier (Traced V) :=
  {| send_notification := λ title msg,
       traced (CallSend title msg) (send_notification n title msg) |}.

Definition traced_logger {V} (l : Logger V) : Logger (Traced V) :=
  {| truthy := truthy l;
     log := λ level msg, traced (CallLog level msg) (log l level msg) |}.

Definition traced_runtime {V} (rt : Runtime V) : Runtime (Traced V) :=
  {| print := λ msg, traced (CallPrint msg) (print rt msg);
     sleep := λ secs, traced (CallSleep secs) (sleep rt secs) |}.

(** A monitor whose collaborators are the recording versions of those of
    [mon]. *)
Definition observed {V} (mon : UPSMonitor V) : UPSMonitor (Traced V) :=
  {| nut_client := traced_client (nut_client mon);
     last_ups_on_battery_status := last_ups_on_battery_status mon;
     last_ups_low_battery_status := last_ups_low_battery_status mon;
     telegram_notifier := traced_notifier (telegram_notifier mon);
     logger := traced_logger (logger mon) |}.

Definition observe {V} (mon : UPSMonitor V) (v : V) (tr : list event)
  : State (Traced V) :=
  {| self := observed mon; world := {| inner := v; trace := tr |} |}.

(** The titles handed to [send_notification], in order. *)
Definition sent_titles (tr : list event) : list str :=
  omap (λ ev, match ev with CallSend title _ => Some title | _ => None end) tr.

(** The on-battery readings returned to the monitor, in order. *)
Definition readings (tr : list event) : list bool :=
  omap (λ ev, match ev with Reading on_battery => Some on_battery | _ => None end) tr.

(** The message bodies handed to [send_notification], in order. *)
Definition sent_bodies (tr : list event) : list str :=
  omap (λ ev, match ev with CallSend _ msg => Some msg | _ => None end) tr.

(** How many status notifications titled [title] were sent. *)
Definition notified (title : str) (tr : list event) : nat :=
  length (filter (λ t, t = status_title title) (sent_titles tr)).

(** The arguments of the calls of [is_ups_battery_low], interleaved with
    the titles sent: what was asked, and around which notification. *)
Inductive mark := Asked (ignore_ob : option bool) | Sent (title : str).
Definition low_queries (tr : list event) : list mark :=
  omap (λ ev, match ev with
              | CallIsBatteryLow arg => Some (Asked arg)
              | CallSend title _ => Some (Sent title)
              | _ => None
              end) tr.

(** [mon] with its two status fields set. *)
Definition with_status {W} (mon : UPSMonitor W) (on_battery low : bool)
  : UPSMonitor W :=
  {| nut_client := nut_client mon;
     last_ups_on_battery_status := on_battery;
     last_ups_low_battery_status := low;
     telegram_notifier := telegram_notifier mon;
     logger := logger mon |}.

(** A collaborator method that returns from every world (never raises). *)
Definition returns {V A} (m : M V A) : Prop :=
  ∀ v, ∃ a v', m v = (Ok a, v').

(** All collaborators of [mon], and the run time, always return. *)
Definition all_return {V} (rt : Runtime V) (mon : UPSMonitor V) : Prop :=
  returns (is_ups_on_battery (nut_client mon))
  ∧ (∀ arg, returns (is_ups_battery_low (nut_client mon) arg))
  ∧ returns (get_battery_charge_percentage (nut_client mon))
  ∧ returns (get_ups_status (nut_client mon))
  ∧ returns (get_current_power_draw (nut_client mon))
  ∧ (∀ title msg, returns (send_notification (telegram_notifier mon) title msg))
  ∧ (∀ level msg, returns (log (logger mon) level msg))
  ∧ (∀ msg, returns (print rt msg))
  ∧ (∀ secs, returns (sleep rt secs)).

End Trace.

(* ===================================================================== *)
(** ** The assembled program, and a scripted device to run it on *)
(* ===================================================================== *)

Module System.
Import Monitor Trace.

Section Wiring.
Context `{Builtins} {E : Type} `{NUT.PyNUT E}.

(** A [NUTClient] seen through the methods the monitor calls.  A call
    of [is_ups_battery_low] without argument takes the default
    [ignore_ob = False] of the method's signature. *)
Definition nut_client_of (c : NUT.NUTClient) : NutClient (NUT.World E) :=
  {| is_ups_on_battery := NUT.is_ups_on_battery c;
     is_ups_battery_low := λ arg, NUT.is_ups_battery_low c (default false arg);
     get_battery_charge_percentage := NUT.get_battery_charge_percentage c;
     get_ups_status := NUT.get_ups_status c;
     get_current_power_draw := NUT.get_current_power_draw c |}.
End Wiring.

(** *** A scripted device

    One [snapshot] per poll cycle: what the server answers during that
    cycle.  [time.sleep] moves on to the next snapshot. *)
Record snapshot := {
  available : outcome bool;
  rw_vars : outcome NUT.byte_dict;
  ups_vars : outcome NUT.byte_dict;
  ups_list : outcome NUT.byte_dict;
}.

Definition unreachable {A} : outcome A :=
  Raise (Exn (OtherException "PyNUTError") "Connection refused").

Definition answer {A} (field : snapshot → outcome A) : M (list snapshot) A :=
  λ script, match script with
            | [] => (unreachable, [])
            | now :: _ => (field now, script)
            end.

#[export] Instance scripted_server : NUT.PyNUT (list snapshot) := {
  CheckUPSAvailable _ _ := answer available;
  GetRWVars _ _ := answer rw_vars;
  GetUPSVars _ _ := answer ups_vars;
  GetUPSList _ := answer ups_list;
}.

(** Conversions for plain data: [decode] on octets below 128, and [int]
    on an optional sign followed by decimal digits.  On such input they
    agree with the interpreter's; on any other they raise. *)
Definition is_ascii (c : ascii) : bool := (nat_of_ascii c <? 128)%nat.

Fixpoint all_chars (p : ascii → bool) (s : str) : bool :=
  match s with
  | EmptyString => true
  | String c s' => p c && all_chars p s'
  end.

Definition ascii_decode (b : bytes) : outcome str :=
  if all_chars is_ascii b then Ok b
  else Raise (Exn UnicodeDecodeError "'utf-8' codec can't decode byte").

Definition is_digit (c : ascii) : bool :=
  let n := nat_of_ascii c in ((48 <=? n) && (n <=? 57))%nat.

Fixpoint digits_value (acc : Z) (s : str) : Z :=
  match s with
  | EmptyString => acc
  | String c s' => digits_value (10 * acc + (Z.of_nat (nat_of_ascii c) - 48)) s'
  end.

Definition decimal (s : str) : outcome Z :=
  let invalid := Raise (Exn ValueError ("invalid literal for int() with base 10: " +:+ s)) in
  let unsigned (d : str) (sign : Z) :=
    match d with
    | EmptyString => invalid
    | _ => if all_chars is_digit d then Ok (sign * digits_value 0 d) else invalid
    end in
  match s with
  | String "-" d => unsigned d (-1)
  | String "+" d => unsigned d 1
  | _ => unsigned s 1
  end.

#[export] Instance plain_builtins : Builtins := {
  bytes_decode := ascii_decode;
  int := decimal;
}.

(** Stand-ins for the notifier and the logger: they return at once. *)
Definition silent_notifier {V} : TelegramNotifier V :=
  {| send_notification := λ _ _, ret tt |}.
Definition silent_logger {V} : Logger V :=
  {| truthy := true; log := λ _ _, ret tt |}.

(** [print] writes a line; [time.sleep] lets the script advance. *)
Definition scripted_runtime : Runtime (NUT.World (list snapshot)) :=
  {| print := NUT.print;
     sleep := λ _ w, (Ok tt, {| NUT.server := tail (NUT.server w);
                                NUT.stdout := NUT.stdout w |}) |}.

Definition device (status charge low power : str) : snapshot :=
  {| available := Ok true;
     rw_vars := Ok [("battery.charge.low", low)];
     ups_vars := Ok [("ups.status", status); ("battery.charge", charge);
                     ("ups.realpower", power)];
     ups_list := Ok [("ups", "UPS")] |}.

Definition the_client : NUT.NUTClient :=
  {| NUT.ups_name := "ups";
     NUT.client := {| NUT.host := "localhost"; NUT.login := "monitor";
                      NUT.password := "secret" |} |}.

(** A scripted world that answers from one snapshot. *)
Definition at_device (d : snapshot) : NUT.World (list snapshot) :=
  {| NUT.server := [d]; NUT.stdout := [] |}.

(** A server that cannot be reached. *)
Definition offline : snapshot :=
  {| available := unreachable; rw_vars := unreachable;
     ups_vars := unreachable; ups_list := unreachable |}.

(** On mains at 80%, and on battery at 15%, with the threshold at 20%. *)
Definition on_mains : snapshot := device "OL" "80" "20" "50".
Definition low_outage : snapshot := device "OB" "15" "20" "50".

(** A device whose listing has no [ups.status]. *)
Definition without_status : snapshot :=
  {| available := Ok true;
     rw_vars := Ok [("battery.charge.low", "20")];
     ups_vars := Ok [("battery.charge", "80")];
     ups_list := Ok [("ups", "UPS")] |}.

(** A freshly started monitor on the scripted device. *)
Definition fresh_monitor : UPSMonitor (NUT.World (list snapshot)) :=
  {| nut_client := nut_client_of the_client;
     last_ups_on_battery_status := false;
     last_ups_low_battery_status := false;
     telegram_notifier := silent_notifier;
     logger := silent_logger |}.

(** The monitor as it is after some cycles: same collaborators, the two
    status fields as given. *)
Definition monitor_in (was_on_battery was_low : bool)
  : UPSMonitor (NUT.World (list snapshot)) :=
  {| nut_client := nut_client_of the_client;
     last_ups_on_battery_status := was_on_battery;
     last_ups_low_battery_status := was_low;
     telegram_notifier := silent_notifier;
     logger := silent_logger |}.

(** Run the monitor for one cycle per snapshot of [script]; the outcome
    and the titles of the notifications it sent. *)
Definition run (script : list snapshot) : outcome unit * list str :=
  match poll_loop (traced_runtime scripted_runtime) (length script)
          (observe fresh_monitor {| NUT.server := script; NUT.stdout := [] |} [])
  with
  | (r, st) => (r, sent_titles (trace (world st)))
  end.

End System.

(* ===================================================================== *)
(** ** The specification's reading of the status string and of a run *)
(* ===================================================================== *)

Module Spec.

(** The fixed lookup table of [status_description()]. *)
Definition status_table (token : str) : option str :=
  if decide (token = "OL") then Some "On Line"
  else if decide (token = "OB") then Some "On Battery"
  else if decide (token = "LB") then Some "Low Battery"
  else if decide (token = "CHRG") then Some "Charging"
  else if decide (token = "DISCHRG") then Some "Discharging"
  else if decide (token = "BYPS") then Some "Bypass"
  else if decide (token = "OFF") then Some "Offline"
  else if decide (token = "TRIM") then Some "SmartTrim"
  else if decide (token = "BOOST") then Some "SmartBoost"
  else None.

(** The tokens of a status string separated by the space character. *)
Fixpoint space_separated_from (tok : str) (s : str) : list str :=
  match s with
  | EmptyString => if decide (tok = "") then [] else [tok]
  | String c s' =>
      if decide (c = " "%char)
      then (if decide (tok = "") then space_separated_from "" s'
            else tok :: space_separated_from "" s')
      else space_separated_from (tok +:+ String c "") s'
  end.
Definition space_separated (s : str) : list str := space_separated_from "" s.

(** [status_description()] : the descriptions of the recognised tokens of
    [ups.status], joined with a comma and a space; "Unknown status" when
    the variable is absent or no token is recognised. *)
Definition status_description (vars : gmap str str) : str :=
  match vars !! "ups.status" with
  | None => "Unknown status"
  | Some status =>
      match omap status_table (split status) with
      | [] => "Unknown status"
      | known => join ", " known
      end
  end.

(** [is_on_battery()] : "OB" is one of the tokens of [ups.status]. *)
Definition is_on_battery (vars : gmap str str) : bool :=
  match vars !! "ups.status" with
  | None => false
  | Some status => bool_decide ("OB" ∈ split status)
  end.

(** The transition notices of a sequence of on-battery readings: an
    outage notice on each change from false to true, a restoration notice
    on each change from true to false, nothing on a repeated reading. *)
Fixpoint transitions (was_on_battery : bool) (readings : list bool) : list str :=
  match readings with
  | [] => []
  | on_battery :: rest =>
      (if negb was_on_battery && on_battery then ["Power outage!"]
       else if was_on_battery && negb on_battery then ["Power restoration!"]
       else [])
      ++ transitions on_battery rest
  end.

(** The notifications of a run as the monitor loop is specified: a poll is
    the pair of the on-battery reading and of whether the charge is at or
    below the threshold; an outage notice on each rising edge, followed by
    a low battery notice when the charge is low on that poll, and a
    restoration notice on each falling edge. *)
Fixpoint notifications (was_on_battery : bool) (polls : list (bool * bool))
  : list str :=
  match polls with
  | [] => []
  | (on_battery, low) :: rest =>
      (if negb was_on_battery && on_battery
       then "Power outage!" :: (if low then ["Low battery!"] else [])
       else if was_on_battery && negb on_battery
       then ["Power restoration!"]
       else [])
      ++ notifications on_battery rest
  end.

End Spec.

(* ===================================================================== *)
(** ** [telegram_notifier.py] : the notification sink *)
(* ===================================================================== *)

Module Telegram.
Import Monitor.

(** [logging.ERROR] *)
Definition ERROR : Z := 40.

(** What the class uses of the [requests] library, over a world [W] with
    the network in it: [post url data] is [requests.post(url, data=data)],
    which returns a response or raises; [raise_for_status] is the method of
    the response; [is_RequestException e] is
    [isinstance(e, requests.exceptions.RequestException)]. *)
Class Requests (W R : Type) := {
  post : str → gmap str str → M W R;
  raise_for_status : R → outcome unit;
  is_RequestException : exn → bool;
}.

(** The error [raise_for_status] raises is an [HTTPError], which is a
    [RequestException]. *)
Definition HTTPError_is_RequestException {W R} {Q : Requests W R} : Prop :=
  ∀ (r : R) (e : exn), raise_for_status r = Raise e → is_RequestException e = true.

Record TelegramNotifier (W : Type) := {
  token_id : str;
  chat_id : str;
  logger : Logger W;
}.
Arguments token_id {W} _.
Arguments chat_id {W} _.
Arguments logger {W} _.

(** [try: m  except cls as e: h e], for the classes [caught] holds of. *)
Definition try_except {S A} (caught : exn → bool) (m : M S A) (h : exn → M S A)
  : M S A :=
  λ s, match m s with
       | (Ok a, s') => (Ok a, s')
       | (Raise e, s') => if caught e then h e s' else (Raise e, s')
       end.

Section Methods.
Context {W R : Type} {Q : Requests W R} (rt : Runtime W).

Definition __init__ (getLogger : Logger W) (token_id chat_id : str)
    (logger : Logger W) : TelegramNotifier W :=
  {| token_id := token_id;
     chat_id := chat_id;
     logger := if truthy logger then logger else getLogger |}.

Definition handle_logging (self : TelegramNotifier W) (level : Z) (message : str)
  : M W unit :=
  if truthy (logger self)
  then log (logger self) level message
  else print rt message.

(** [f"<b>{msg_title}</b>\n\n{msg}\n\n<b>{post_msg}</b>"] *)
Definition full_msg (msg_title msg : str) : str :=
  let post_msg := "Your faithful employee," +:+ nl +:+ "TeleUPS" in
  "<b>" +:+ msg_title +:+ "</b>" +:+ nl +:+ nl +:+ msg +:+ nl +:+ nl
  +:+ "<b>" +:+ post_msg +:+ "</b>".

Definition send_notification (self : TelegramNotifier W) (msg_title msg : str)
  : M W unit :=
  let full_msg := full_msg msg_title msg in
  let payload : gmap str str :=
    <["chat_id" := chat_id self]> (
    <["text" := full_msg]> (
    <["parse_mode" := "HTML"]> ∅)) in
  let url := "https://api.telegram.org/bot" +:+ token_id self +:+ "/sendMessage" in
  try_except is_RequestException
    (response <- post url payload ;;
     of_outcome (raise_for_status response) ;;;
     handle_logging self INFO "Telegram notification has been sent successfully")
    (λ e, handle_logging self ERROR
            ("Failed to send Telegram notification: " +:+ exc_msg e)).

(** A [TelegramNotifier] seen through the method the monitor calls. *)
Definition notifier_of (self : TelegramNotifier W) : Monitor.TelegramNotifier W :=
  {| Monitor.send_notification := send_notification self |}.

End Methods.

(** *** Observing the notifier: the requests it posts and what it logs *)

Inductive wire_event :=
| Posted (url : str) (data : gmap str str)
| Logged (level : Z) (msg : str)
| Printed (msg : str).

Record Wired (W : Type) := { under : W; wire : list wire_event }.
Arguments under {W} _.
Arguments wire {W} _.

Definition wired {W A} (ev : wire_event) (m : M W A) : M (Wired W) A :=
  λ t, match m (under t) with
       | (r, v') => (r, {| under := v'; wire := wire t ++ [ev] |})
       end.

#[export] Instance wired_requests {W R} {Q : Requests W R} : Requests (Wired W) R := {
  post url data := wired (Posted url data) (post url data);
  raise_for_status := raise_for_status;
  is_RequestException := is_RequestException;
}.

Definition wired_logger {W} (l : Logger W) : Logger (Wired W) :=
  {| truthy := truthy l;
     log := λ level msg, wired (Logged level msg) (log l level msg) |}.

Definition wired_runtime {W} (rt : Runtime W) : Runtime (Wired W) :=
  {| print := λ msg, wired (Printed msg) (print rt msg);
     sleep := λ secs t, match sleep rt secs (under t) with
                        | (r, v') => (r, {| under := v'; wire := wire t |})
                        end |}.

Definition wired_notifier {W} (self : TelegramNotifier W) : TelegramNotifier (Wired W) :=
  {| token_id := token_id self;
     chat_id := chat_id self;
     logger := wired_logger (logger self) |}.

(** The record of a message logged by [self]: through its logger, or
    printed when the logger is false. *)
Definition log_record {W} (self : TelegramNotifier W) (level : Z) (msg : str)
  : wire_event :=
  if truthy (logger self) then Logged level msg else Printed msg.

(** The method that writes that record. *)
Definition log_call {W} (rt : Runtime W) (self : TelegramNotifier W)
    (level : Z) (msg : str) : M W unit :=
  if truthy (logger self) then log (logger self) level msg else print rt msg.

(** The request [send_notification] makes. *)
Definition request_url {W} (self : TelegramNotifier W) : str :=
  "https://api.telegram.org/bot" +:+ token_id self +:+ "/sendMessage".
Definition request_data {W} (self : TelegramNotifier W) (msg_title msg : str)
  : gmap str str :=
  <["chat_id" := chat_id self]> (
  <["text" := full_msg msg_title msg]> (
  <["parse_mode" := "HTML"]> ∅)).

(** *** A scripted network: one reply per request, an HTTP status code or
    an error *)

Definition http_error (code : Z) : exn :=
  Exn (OtherException "HTTPError") (pretty code +:+ " Error").

Definition scripted_post : M (list (outcome Z)) Z :=
  λ replies, match replies with
             | [] => (Raise (Exn (OtherException "ConnectionError") "no route"), [])
             | reply :: rest => (reply, rest)
             end.

Definition is_request_error (e : exn) : bool :=
  match exc_type e with
  | OtherException name =>
      bool_decide (name ∈ ["RequestException"; "HTTPError"; "ConnectionError";
                           "Timeout"])
  | _ => false
  end.

Definition status_check (code : Z) : outcome unit :=
  if (400 <=? code) && (code <? 600) then Raise (http_error code) else Ok tt.

#[export] Instance scripted_requests : Requests (list (outcome Z)) Z := {
  post _ _ := scripted_post;
  raise_for_status := status_check;
  is_RequestException := is_request_error;
}.

(** A network that always answers, with the next status code of its
    script, or is out of reach when the script is used up. *)
Definition answering_post : M (list Z) Z :=
  λ codes, match codes with
           | [] => (Raise (Exn (OtherException "ConnectionError") "no route"), [])
           | code :: rest => (Ok code, rest)
           end.

Definition answering_requests : Requests (list Z) Z :=
  {| post := λ _ _, answering_post;
     raise_for_status := status_check;
     is_RequestException := is_request_error |}.

Definition still_runtime {W} : Runtime W :=
  {| print := λ _, ret tt; sleep := λ _, ret tt |}.

Definition the_notifier {W} : TelegramNotifier W :=
  {| token_id := "123:abc"; chat_id := "42";
     logger := {| truthy := true; log := λ _ _, ret tt |} |}.

End Telegram.

(* ===================================================================== *)
(** ** Further devices and run times *)
(* ===================================================================== *)

Module Devices.
Import NUT System.

(** An item of a listing and the pair of [str] it decodes to. *)
Definition decodes_to `{Builtins} (item : string * string) (kv : string * string) : Prop :=
  bytes_decode item.1 = Ok kv.1 ∧ bytes_decode item.2 = Ok kv.2.

(** A server that gives the answers of one snapshot to every call,
    whatever came before. *)
Definition constant_server (d : snapshot) : PyNUT unit :=
  {| CheckUPSAvailable := λ _ _, of_outcome (available d);
     GetRWVars := λ _ _, of_outcome (rw_vars d);
     GetUPSVars := λ _ _, of_outcome (ups_vars d);
     GetUPSList := λ _, of_outcome (ups_list d) |}.

Definition blank : World unit := {| server := tt; stdout := [] |}.

(** A listing whose first key is not UTF-8, and a call interrupted from
    the keyboard. *)
Definition garbled : snapshot :=
  {| available := Ok true;
     rw_vars := Ok [("battery.charge.low", "20")];
     ups_vars := Ok [(String "255"%char "", "OL"); ("battery.charge", "80")];
     ups_list := Ok [("ups", "UPS")] |}.

Definition interrupted : snapshot :=
  {| available := Raise (Exn KeyboardInterrupt "");
     rw_vars := Raise (Exn KeyboardInterrupt "");
     ups_vars := Raise (Exn KeyboardInterrupt "");
     ups_list := Raise (Exn KeyboardInterrupt "") |}.

(** The run time of a monitor on a constant server: [print] writes a
    line, [time.sleep] returns. *)
Definition plain_runtime : Monitor.Runtime (World unit) :=
  {| Monitor.print := λ line w, (Ok tt, {| server := server w;
                                           stdout := stdout w ++ [line] |});
     Monitor.sleep := λ _, ret tt |}.

(** A monitor on the constant server [d], its two status fields as
    given. *)
Definition monitor_on (d : snapshot) (was_on_battery was_low : bool)
  : Monitor.UPSMonitor (World unit) :=
  {| Monitor.nut_client := nut_client_of (H0 := constant_server d) the_client;
     Monitor.last_ups_on_battery_status := was_on_battery;
     Monitor.last_ups_low_battery_status := was_low;
     Monitor.telegram_notifier := silent_notifier;
     Monitor.logger := silent_logger |}.

(** The notifications one poll cycle can send: none, the outage notice,
    the outage notice followed by the low battery notice, or the
    restoration notice. *)
Definition block (titles : list string) : Prop :=
  titles = []
  ∨ titles = [Monitor.status_title "Power outage!"]
  ∨ titles = [Monitor.status_title "Power outage!";
              Monitor.status_title "Low battery!"]
  ∨ titles = [Monitor.status_title "Power restoration!"].

(** All collaborators of [mon] return, and so does [print]; nothing is
    asked of [time.sleep]. *)
Definition all_return_but_sleep {V} (rt : Monitor.Runtime V)
    (mon : Monitor.UPSMonitor V) : Prop :=
  Trace.returns (Monitor.is_ups_on_battery (Monitor.nut_client mon))
  ∧ (∀ arg, Trace.returns (Monitor.is_ups_battery_low (Monitor.nut_client mon) arg))
  ∧ Trace.returns (Monitor.get_battery_charge_percentage (Monitor.nut_client mon))
  ∧ Trace.returns (Monitor.get_ups_status (Monitor.nut_client mon))
  ∧ Trace.returns (Monitor.get_current_power_draw (Monitor.nut_client mon))
  ∧ (∀ title msg,
       Trace.returns (Monitor.send_notification (Monitor.telegram_notifier mon) title msg))
  ∧ (∀ level msg, Trace.returns (Monitor.log (Monitor.logger mon) level msg))
  ∧ (∀ msg, Trace.returns (Monitor.print rt msg)).

(** The record of a message the monitor logs: through its logger, or
    printed when the logger is false. *)
Definition logged {V} (mon : Monitor.UPSMonitor V) (level : Z) (msg : string)
  : Trace.event :=
  if Monitor.truthy (Monitor.logger mon) then Trace.CallLog level msg
  else Trace.CallPrint msg.

(** A client that gives fixed answers, and a run time whose
    [time.sleep] is interrupted from the keyboard. *)
Definition fixed_client {V} (on_battery low : bool) (charge power : Z)
    (status : string) : Monitor.NutClient V :=
  {| Monitor.is_ups_on_battery := ret on_battery;
     Monitor.is_ups_battery_low := λ _, ret low;
     Monitor.get_battery_charge_percentage := ret charge;
     Monitor.get_ups_status := ret status;
     Monitor.get_current_power_draw := ret power |}.

Definition interrupted_runtime {V} : Monitor.Runtime V :=
  {| Monitor.print := λ _, ret tt;
     Monitor.sleep := λ _, raise (Exn KeyboardInterrupt "") |}.

Definition fixed_monitor {V} (on_battery low : bool)
    (notifier : Monitor.TelegramNotifier V) : Monitor.UPSMonitor V :=
  {| Monitor.nut_client := fixed_client on_battery low 15 50 "On Battery";
     Monitor.last_ups_on_battery_status := false;
     Monitor.last_ups_low_battery_status := false;
     Monitor.telegram_notifier := notifier;
     Monitor.logger := silent_logger |}.

End Devices.

(* ===================================================================== *)
(** ** Properties of the device client *)
(* ===================================================================== *)

Module NUTFacts.
Import NUT System.

Section Generic.
Context `{Builtins} {E : Type} `{PyNUT E}.

Lemma handle_operation_ok {A} (op : M E A) w a s1 :
  op (server w) = (Ok a, s1) →
  __handle_operation op w = (Ok (Some a), {| server := s1; stdout := stdout w |}).
Proof.
  intros Hop. unfold __handle_operation, try_except_Exception, bind, call, zoom.
  rewrite Hop. reflexivity.
Qed.

Lemma handle_operation_caught {A} (op : M E A) w e s1 :
  op (server w) = (Raise e, s1) → is_Exception e = true →
  __handle_operation op w
  = (Ok None, {| server := s1;
                 stdout := stdout w ++ ["Error occurred: " +:+ exc_msg e] |}).
Proof.
  intros Hop He. unfold __handle_operation, try_except_Exception, bind, call, zoom.
  rewrite Hop, He. reflexivity.
Qed.

Lemma handle_operation_escapes {A} (op : M E A) w e s1 :
  op (server w) = (Raise e, s1) → is_Exception e = false →
  __handle_operation op w = (Raise e, {| server := s1; stdout := stdout w |}).
Proof.
  intros Hop He. unfold __handle_operation, try_except_Exception, bind, call, zoom.
  rewrite Hop, He. reflexivity.
Qed.

(** Every method that starts with [get_ups_vars] continues on the
    mapping it returned. *)
Lemma after_get_ups_vars {A} self (k : gmap str str → M (World E) A) w vars w1 :
  get_ups_vars self w = (Ok vars, w1) →
  (ups_vars <- get_ups_vars self ;; k ups_vars) w = k vars w1.
Proof. intros Hv. unfold bind. rewrite Hv. reflexivity. Qed.

Lemma dict_truthy_empty {V} : dict_truthy (∅ : gmap str V) = false.
Proof. unfold dict_truthy. apply bool_decide_eq_false. auto. Qed.

Lemma dict_truthy_nonempty {V} (d : gmap str V) : d ≠ ∅ → dict_truthy d = true.
Proof. intros Hd. unfold dict_truthy. by apply bool_decide_eq_true. Qed.

Lemma dict_truthy_lookup {V} (d : gmap str V) k v :
  d !! k = Some v → dict_truthy d = true.
Proof.
  intros Hk. apply dict_truthy_nonempty. intros ->.
  by rewrite lookup_empty in Hk.
Qed.

End Generic.

Section FailSoft.
Context `{Builtins} {E : Type} `{PyNUT E}.

(** C7. When the protocol call [GetUPSVars] raises an [Exception] (any
    communication error), [get_ups_vars] catches it and returns the empty
    mapping: nothing is raised to the caller.  A device that answers with
    an empty listing yields the same return value, so the caller cannot
    tell the two apart. *)
Theorem get_ups_vars_fails_soft (self : NUTClient) (w : World E) (e : exn) (s1 : E) :
  GetUPSVars (client self) (ups_name self) (server w) = (Raise e, s1) →
  is_Exception e = true →
  get_ups_vars self w
  = (Ok ∅, {| server := s1;
              stdout := stdout w ++ ["Error occurred: " +:+ exc_msg e] |})
  ∧ ∀ (w0 : World E) (s0 : E),
      GetUPSVars (client self) (ups_name self) (server w0) = (Ok [], s0) →
      (get_ups_vars self w0).1 = (get_ups_vars self w).1.
Proof.
  intros Hraise Hexc.
  assert (Herr : get_ups_vars self w
            = (Ok ∅, {| server := s1;
                        stdout := stdout w ++ ["Error occurred: " +:+ exc_msg e] |})).
  { unfold get_ups_vars, bind.
    rewrite (handle_operation_caught _ _ _ _ Hraise Hexc). reflexivity. }
  split; [exact Herr|].
  intros w0 s0 Hempty. rewrite Herr.
  unfold get_ups_vars, bind.
  rewrite (handle_operation_ok _ _ _ _ Hempty). reflexivity.
Qed.

(** When the probe raises an [Exception], [is_ups_available] hands back
    what [__handle_operation] returned: Python's [None]. *)
Lemma is_ups_available_caught (self : NUTClient) (w : World E) (e : exn) (s1 : E) :
  CheckUPSAvailable (client self) (ups_name self) (server w) = (Raise e, s1) →
  is_Exception e = true →
  is_ups_available self w
  = (Ok None, {| server := s1;
                 stdout := stdout w ++ ["Error occurred: " +:+ exc_msg e] |}).
Proof. intros Hraise Hexc. by apply handle_operation_caught. Qed.

Lemma is_ups_available_answer (self : NUTClient) (w : World E) (b : bool) (s1 : E) :
  CheckUPSAvailable (client self) (ups_name self) (server w) = (Ok b, s1) →
  is_ups_available self w = (Ok (Some b), {| server := s1; stdout := stdout w |}).
Proof. intros Hok. by apply handle_operation_ok. Qed.

(** What [is_ups_on_battery] computes from the mapping it fetched. *)
Lemma is_ups_on_battery_of_vars (self : NUTClient) (w w1 : World E) vars :
  get_ups_vars self w = (Ok vars, w1) →
  is_ups_on_battery self w
  = if dict_truthy vars then
      match vars !! "ups.status" with
      | Some status => (Ok (str_in "OB" status), w1)
      | None => (Raise (Exn TypeError "argument of type 'NoneType' is not iterable"), w1)
      end
    else (Ok false, w1).
Proof.
  intros Hv. unfold is_ups_on_battery. rewrite (after_get_ups_vars _ _ _ _ _ Hv).
  destruct (dict_truthy vars); [|done]. by destruct (vars !! "ups.status").
Qed.

(** C10. On a non-empty mapping without the key [ups.status],
    [is_ups_on_battery] does not return: it raises [TypeError].  The
    answer [False] for missing data is given for the empty mapping only. *)
Theorem is_ups_on_battery_raises_without_status
    (self : NUTClient) (w w1 : World E) (vars : gmap str str) :
  get_ups_vars self w = (Ok vars, w1) →
  vars !! "ups.status" = None →
  (vars ≠ ∅ → ∃ e, is_ups_on_battery self w = (Raise e, w1) ∧ exc_type e = TypeError)
  ∧ (vars = ∅ → is_ups_on_battery self w = (Ok false, w1)).
Proof.
  intros Hv Hno. rewrite (is_ups_on_battery_of_vars _ _ _ _ Hv), Hno. split.
  - intros Hne. rewrite (dict_truthy_nonempty _ Hne). eauto.
  - intros ->. by rewrite dict_truthy_empty.
Qed.

(** C6. Once [is_ups_on_battery] has answered [on_battery]:
    - off battery and without [ignore_ob], [is_ups_battery_low] returns
      [False] at once, whatever the charge and the threshold are;
    - on battery, or with [ignore_ob], it returns whether the charge it
      then reads is at most the threshold it then reads. *)
Theorem is_ups_battery_low_cases
    (self : NUTClient) (ignore_ob on_battery : bool) (w w1 : World E) :
  is_ups_on_battery self w = (Ok on_battery, w1) →
  (on_battery = false → ignore_ob = false →
     is_ups_battery_low self ignore_ob w = (Ok false, w1))
  ∧ (on_battery = true ∨ ignore_ob = true →
     ∀ (charge low : Z) (w2 w3 : World E),
       get_battery_charge_percentage self w1 = (Ok charge, w2) →
       get_battery_charge_low_percentage self w2 = (Ok low, w3) →
       is_ups_battery_low self ignore_ob w = (Ok (bool_decide (charge ≤ low)), w3)).
Proof.
  intros Hob. unfold is_ups_battery_low, bind. rewrite Hob. split.
  - by intros -> ->.
  - intros Hor charge low w2 w3 Hc Hl.
    assert (negb on_battery && negb ignore_ob = false) as ->.
    { destruct Hor as [-> | ->]; [done | by destruct on_battery]. }
    rewrite Hc, Hl. unfold ret. do 2 f_equal.
    destruct (Z.leb_spec charge low).
    + symmetry. by apply bool_decide_eq_true.
    + symmetry. apply bool_decide_eq_false. lia.
Qed.

End FailSoft.

Lemma status_map_lookup (code : str) : status_map !! code = Spec.status_table code.
Proof.
  unfold status_map, Spec.status_table.
  repeat (rewrite lookup_insert; case_decide; [by subst; repeat case_decide|]).
  rewrite lookup_empty. by repeat case_decide.
Qed.

Lemma status_table_known (code desc : str) :
  Spec.status_table code = Some desc → desc ≠ "Unknown status".
Proof.
  unfold Spec.status_table. repeat case_decide; intros [= <-]; done.
Qed.


(** Dropping the placeholder from the mapped descriptions keeps exactly the
    descriptions of the recognised tokens. *)
Lemma known_statuses_recognised (codes : list str) :
  filter (λ desc, desc ≠ "Unknown status")
         (map (λ code, dict_get status_map code "Unknown status") codes)
  = omap Spec.status_table codes.
Proof.
  induction codes as [|code codes IH]; [done|].
  cbn [map]. unfold dict_get at 1. rewrite status_map_lookup.
  change (omap Spec.status_table (code :: codes))
    with (match Spec.status_table code with
          | Some d => d :: omap Spec.status_table codes
          | None => omap Spec.status_table codes
          end).
  destruct (Spec.status_table code) as [desc|] eqn:Hcode; cbn [default].
  - rewrite filter_cons_True by (by eapply status_table_known).
    f_equal. exact IH.
  - rewrite filter_cons_False by (by intros Hn; apply Hn).
    exact IH.
Qed.

Section Status.
Context `{Builtins} {E : Type} `{PyNUT E}.

(** What [get_ups_status] computes from the mapping it fetched. *)
Lemma get_ups_status_of_vars (self : NUTClient) (w w1 : World E) (vars : gmap str str) :
  get_ups_vars self w = (Ok vars, w1) →
  get_ups_status self w = (Ok (Spec.status_description vars), w1).
Proof.
  intros Hv. unfold get_ups_status. rewrite (after_get_ups_vars _ _ _ _ _ Hv).
  unfold Spec.status_description, dict_get.
  destruct (dict_truthy vars) eqn:Ht.
  - cbv zeta. rewrite known_statuses_recognised.
    destruct (vars !! "ups.status") as [status|]; unfold default, from_option, id.
    + by destruct (omap Spec.status_table (split status)).
    + reflexivity.
  - apply bool_decide_eq_false in Ht.
    assert (vars = ∅) as -> by (by destruct (decide (vars = ∅)); [|exfalso; auto]).
    by rewrite lookup_empty.
Qed.

Lemma omap_status_table_unrecognised (codes : list string) :
  Forall (λ code, Spec.status_table code = None) codes →
  omap Spec.status_table codes = [].
Proof.
  induction 1 as [|code codes Hcode _ IH]; [done|].
  change (omap Spec.status_table (code :: codes))
    with (match Spec.status_table code with
          | Some d => d :: omap Spec.status_table codes
          | None => omap Spec.status_table codes
          end).
  by rewrite Hcode.
Qed.

(** C5. [get_ups_status] on the mapping [vars] it fetched returns the
    descriptions, by the fixed table, of the recognised tokens of
    [ups.status], in order and joined with ", "; unrecognised tokens are
    dropped.  It returns "Unknown status" when the mapping is empty, when
    the key is absent and when no token is recognised.  So "OL" gives
    "On Line", "OB LB" gives "On Battery, Low Battery" and "OL ZZZ" gives
    "On Line".  The tokens are those of [str.split()]. *)
Theorem get_ups_status_describes
    (self : NUTClient) (w w1 : World E) (vars : gmap string string) :
  get_ups_vars self w = (Ok vars, w1) →
  get_ups_status self w = (Ok (Spec.status_description vars), w1)
  ∧ (vars = ∅ ∨ vars !! "ups.status" = None
     ∨ (∃ status, vars !! "ups.status" = Some status
                  ∧ Forall (λ code, Spec.status_table code = None) (split status)) →
     get_ups_status self w = (Ok "Unknown status", w1))
  ∧ (vars !! "ups.status" = Some "OL" →
     get_ups_status self w = (Ok "On Line", w1))
  ∧ (vars !! "ups.status" = Some "OB LB" →
     get_ups_status self w = (Ok "On Battery, Low Battery", w1))
  ∧ (vars !! "ups.status" = Some "OL ZZZ" →
     get_ups_status self w = (Ok "On Line", w1)).
Proof.
  intros Hv. rewrite (get_ups_status_of_vars _ _ _ _ Hv).
  unfold Spec.status_description. split; [done|]. split; [|split; [|split]].
  - intros [-> | [-> | (status & -> & Hnone)]].
    + by rewrite lookup_empty.
    + done.
    + by rewrite (omap_status_table_unrecognised _ Hnone).
  - by intros ->.
  - by intros ->.
  - by intros ->.
Qed.

End Status.

(** Where space is the only separator that occurs, the tokens of
    [str.split()] are the space-separated ones. *)
Lemma split_from_space_separated (s tok : string) :
  all_chars (λ c, negb (isspace c) || bool_decide (c = " "%char)) s = true →
  split_from tok s = Spec.space_separated_from tok s.
Proof.
  revert tok. induction s as [|c s IH]; intros tok Hs; [done|].
  cbn in Hs. apply andb_prop in Hs as [Hc Hs].
  cbn [split_from Spec.space_separated_from].
  destruct (decide (c = " "%char)) as [->|Hne].
  - cbn. by rewrite !IH.
  - destruct (isspace c) eqn:Hsp.
    + cbn in Hc. by apply bool_decide_eq_true in Hc.
    + by apply IH.
Qed.

Lemma split_space_separated (s : string) :
  all_chars (λ c, negb (isspace c) || bool_decide (c = " "%char)) s = true →
  split s = Spec.space_separated s.
Proof. apply split_from_space_separated. Qed.

Lemma append_cons (c : ascii) (s t : string) : String c s +:+ t = String c (s +:+ t).
Proof. reflexivity. Qed.

Lemma append_assoc (s t u : string) : (s +:+ t) +:+ u = s +:+ (t +:+ u).
Proof. induction s as [|c s IH]; [done|]. by rewrite !append_cons, IH. Qed.

Lemma prefix_append (s t : string) : String.prefix s (s +:+ t) = true.
Proof.
  induction s as [|c s IH]; [by destruct t|].
  rewrite append_cons. simpl. by destruct (ascii_dec c c).
Qed.

Lemma str_in_prefix (sub s : string) : String.prefix sub s = true → str_in sub s = true.
Proof. intros Hp. destruct s; cbn [str_in]; by rewrite Hp. Qed.

Lemma str_in_occurs (sub pre post : string) :
  str_in sub (pre +:+ sub +:+ post) = true.
Proof.
  induction pre as [|c pre IH].
  - change ("" +:+ sub +:+ post) with (sub +:+ post).
    apply str_in_prefix, prefix_append.
  - rewrite append_cons. cbn [str_in]. rewrite IH. apply orb_true_r.
Qed.

Lemma split_from_occurs (s tok t : string) :
  t ∈ split_from tok s → ∃ pre post, tok +:+ s = pre +:+ t +:+ post.
Proof.
  revert tok. induction s as [|c s IH]; intros tok; cbn [split_from].
  - case_decide; [by intros ?%elem_of_nil|].
    intros ->%list_elem_of_singleton. by exists "", "".
  - destruct (isspace c).
    + case_decide as Htok.
      * subst tok. intros (pre & post & Heq)%IH.
        exists (String c pre), post. rewrite append_cons.
        change ("" +:+ String c s) with (String c ("" +:+ s)). by rewrite Heq.
      * intros [->|Hin]%elem_of_cons.
        -- by exists "", (String c s).
        -- apply IH in Hin as (pre & post & Heq).
           exists (tok +:+ String c pre), post.
           rewrite append_assoc, append_cons.
           change (String c s) with (String c ("" +:+ s)). by rewrite Heq.
    + intros (pre & post & Heq)%IH. exists pre, post.
      rewrite <- Heq, append_assoc. reflexivity.
Qed.

(** A token of [s.split()] occurs in [s]. *)
Lemma token_occurs (t s : string) : t ∈ split s → str_in t s = true.
Proof.
  intros (pre & post & Heq)%split_from_occurs.
  change ("" +:+ s) with s in Heq. rewrite Heq. apply str_in_occurs.
Qed.

Section OnBattery.
Context `{Builtins} {E : Type} `{PyNUT E}.

(** Whenever "OB" is a token of the status, [is_ups_on_battery] returns
    [True].  The converse fails: "OB" inside another token is enough. *)
Lemma is_ups_on_battery_token (self : NUTClient) (w w1 : World E)
    (vars : gmap string string) :
  get_ups_vars self w = (Ok vars, w1) →
  Spec.is_on_battery vars = true →
  is_ups_on_battery self w = (Ok true, w1).
Proof.
  intros Hv Hspec. rewrite (is_ups_on_battery_of_vars _ _ _ _ Hv).
  unfold Spec.is_on_battery in Hspec.
  destruct (vars !! "ups.status") as [status|] eqn:Hstatus; [|done].
  rewrite (dict_truthy_lookup _ _ _ Hstatus).
  apply bool_decide_eq_true in Hspec. by rewrite (token_occurs _ _ Hspec).
Qed.

End OnBattery.

(** C8. With the server out of reach, [is_ups_available] catches the
    error and returns Python's [None], not the boolean [False]. *)
Theorem is_ups_available_None_on_error :
  is_ups_available the_client (at_device offline)
  = (Ok None, {| server := [offline];
                 stdout := ["Error occurred: Connection refused"] |})
  ∧ (is_ups_available the_client (at_device offline)).1 ≠ Ok (Some false).
Proof. split; [reflexivity | discriminate]. Qed.

(** C3. On the status "OL NOBATT", whose tokens are "OL" and "NOBATT",
    [is_ups_on_battery] returns [True]: it tests whether "OB" occurs in
    the status string, not whether it is one of its tokens. *)
Theorem is_ups_on_battery_matches_substring :
  (is_ups_on_battery the_client (at_device (device "OL NOBATT" "80" "20" "50"))).1
  = Ok true
  ∧ split "OL NOBATT" = ["OL"; "NOBATT"]
  ∧ Spec.is_on_battery {[ "ups.status" := "OL NOBATT" ]} = false.
Proof. split; [|split]; by vm_compute. Qed.

(** *** The theorems above at concrete devices *)

Lemma get_ups_vars_fails_soft_witness :
  GetUPSVars (client the_client) (ups_name the_client) [offline]
  = (Raise (Exn (OtherException "PyNUTError") "Connection refused"), [offline])
  ∧ get_ups_vars the_client (at_device offline)
    = (Ok ∅, {| server := [offline];
                stdout := ["Error occurred: Connection refused"] |}).
Proof.
  split; [reflexivity|].
  apply (get_ups_vars_fails_soft the_client (at_device offline)
           (Exn (OtherException "PyNUTError") "Connection refused") [offline]);
    reflexivity.
Defined.

Lemma is_ups_on_battery_raises_without_status_witness :
  get_ups_vars the_client (at_device without_status)
  = (Ok {[ "battery.charge" := "80" ]}, at_device without_status)
  ∧ ∃ e, is_ups_on_battery the_client (at_device without_status)
         = (Raise e, at_device without_status)
         ∧ exc_type e = TypeError.
Proof.
  assert (Hv : get_ups_vars the_client (at_device without_status)
               = (Ok {[ "battery.charge" := "80" ]}, at_device without_status))
    by (vm_compute; reflexivity).
  split; [exact Hv|].
  apply (is_ups_on_battery_raises_without_status _ _ _ _ Hv).
  - vm_compute; reflexivity.
  - apply map_non_empty_singleton.
Defined.

Lemma is_ups_battery_low_cases_witness :
  is_ups_battery_low the_client false (at_device on_mains)
  = (Ok false, at_device on_mains)
  ∧ is_ups_battery_low the_client false (at_device low_outage)
    = (Ok true, at_device low_outage)
  ∧ is_ups_battery_low the_client true (at_device (device "OL" "15" "20" "50"))
    = (Ok true, at_device (device "OL" "15" "20" "50")).
Proof.
  assert (H1 : is_ups_on_battery the_client (at_device on_mains)
               = (Ok false, at_device on_mains)) by (vm_compute; reflexivity).
  assert (H2 : is_ups_on_battery the_client (at_device low_outage)
               = (Ok true, at_device low_outage)) by (vm_compute; reflexivity).
  assert (H3 : is_ups_on_battery the_client (at_device (device "OL" "15" "20" "50"))
               = (Ok false, at_device (device "OL" "15" "20" "50")))
    by (vm_compute; reflexivity).
  split; [|split].
  - apply (proj1 (is_ups_battery_low_cases the_client false false _ _ H1));
      reflexivity.
  - apply (proj2 (is_ups_battery_low_cases the_client false true _ _ H2)
             (or_introl eq_refl) 15 20 (at_device low_outage));
      vm_compute; reflexivity.
  - apply (proj2 (is_ups_battery_low_cases the_client true false _ _ H3)
             (or_intror eq_refl) 15 20 (at_device (device "OL" "15" "20" "50")));
      vm_compute; reflexivity.
Defined.

Lemma get_ups_status_describes_witness :
  get_ups_status the_client (at_device (device "OB LB" "15" "20" "50"))
  = (Ok "On Battery, Low Battery", at_device (device "OB LB" "15" "20" "50")).
Proof.
  assert (Hv : get_ups_vars the_client (at_device (device "OB LB" "15" "20" "50"))
               = (Ok (<["ups.realpower" := "50"]>
                        (<["battery.charge" := "15"]> {[ "ups.status" := "OB LB" ]})),
                  at_device (device "OB LB" "15" "20" "50")))
    by reflexivity.
  apply (proj1 (proj2 (proj2 (proj2 (get_ups_status_describes _ _ _ _ Hv))))).
  vm_compute; reflexivity.
Defined.

End NUTFacts.

(* ===================================================================== *)
(** ** Properties of the monitor loop *)
(* ===================================================================== *)

Module MonitorFacts.
Import Monitor Trace System.

(** Symbolic execution of a method on an observed monitor: unfold the
    method down to the collaborator calls, then split on the outcome of
    each call in turn. *)
Ltac unfold_monitor :=
  unfold poll_cycle, handle_power_outage, handle_power_restoration,
    send_ups_status_notification, handle_logging, with_self, on_world,
    set_last_ups_on_battery_status, set_last_ups_low_battery_status,
    observe, observed, with_status, traced_client, traced_notifier,
    traced_logger, traced_runtime, bind, ret, zoom, traced, traced_reading in *.

Ltac next_call :=
  match goal with
  | |- context [match ?m ?v with pair _ _ => _ end] =>
      lazymatch m with
      | context [match _ with _ => _ end] => fail
      | _ => destruct (m v) as [[?|?] ?] eqn:?
      end
  end.

Ltac next_test :=
  match goal with
  | |- context [if ?c then _ else _] =>
      match c with
      | context [?b] =>
          is_var b;
          lazymatch type of b with bool => destruct b end
      end
  end.

Ltac run_calls := repeat (first [next_call | next_test]; cbn).

Ltac open_monitor mon rt :=
  destruct mon as [client prior last_low notifier [truthy log]];
  destruct rt as [print sleep];
  unfold_monitor; cbn.

(** A monitor starts with both status flags false and with the
    collaborators it was given. *)
Lemma init_flags {W} (rt : Runtime W) (getLogger : Logger W)
    (client : NutClient W) (notifier : TelegramNotifier W) (logger : Logger W)
    (w w' : W) (mon : UPSMonitor W) :
  __init__ rt getLogger client notifier logger w = (Ok mon, w') →
  last_ups_on_battery_status mon = false
  ∧ last_ups_low_battery_status mon = false
  ∧ nut_client mon = client
  ∧ telegram_notifier mon = notifier.
Proof.
  unfold __init__, handle_logging, with_self, on_world, zoom. cbn.
  destruct (truthy (if truthy logger then logger else getLogger)); cbn.
  - destruct (log _ _ _ _) as [[[]|e] w1]; intros [= <- <-]; done.
  - destruct (print _ _ _) as [[[]|e] w1]; intros [= <- <-]; done.
Qed.

Section Cycle.
Context {V : Type} (rt : Runtime V).

(** The notifications of a poll cycle that runs to its end, by prior
    status and reading. *)
Lemma completed_cycle_notifies
    (mon : UPSMonitor V) (v : V) (tr : list event) (st' : State (Traced V)) :
  poll_cycle (traced_runtime rt) (observe mon v tr) = (Ok tt, st') →
  ∃ (cur : bool) (v1 : V) (new : list event),
    is_ups_on_battery (nut_client mon) v = (Ok cur, v1)
    ∧ trace (world st') = (tr ++ new)%list
    ∧ notified "Power outage!" new
      = (if negb (last_ups_on_battery_status mon) && cur then 1 else 0)%nat
    ∧ notified "Power restoration!" new
      = (if last_ups_on_battery_status mon && negb cur then 1 else 0)%nat
    ∧ (last_ups_on_battery_status mon = cur → sent_titles new = []).
Proof.
  open_monitor mon rt. run_calls.
  all: intros Hend; simplify_eq; cbn.
  all: do 3 eexists; split; [reflexivity|]; rewrite <- ?app_assoc.
  all: split; [reflexivity|]; by vm_compute.
Qed.

(** Whatever the outcome of the cycle, no notification is sent without
    its edge, and none is sent twice. *)
Lemma poll_cycle_no_spurious (mon : UPSMonitor V) (v : V) (tr : list event) :
  ∃ new : list event,
    trace (world (poll_cycle (traced_runtime rt) (observe mon v tr)).2)
    = (tr ++ new)%list
    ∧ (notified "Power outage!" new ≤ 1)%nat
    ∧ (notified "Power restoration!" new ≤ 1)%nat
    ∧ (notified "Power outage!" new = 1%nat →
       last_ups_on_battery_status mon = false
       ∧ (is_ups_on_battery (nut_client mon) v).1 = Ok true)
    ∧ (notified "Power restoration!" new = 1%nat →
       last_ups_on_battery_status mon = true
       ∧ (is_ups_on_battery (nut_client mon) v).1 = Ok false).
Proof.
  open_monitor mon rt. run_calls.
  all: rewrite <- ?app_assoc; eexists; split; [reflexivity|].
  all: vm_compute; repeat split; first [lia | by intros].
Qed.

(** With collaborators that always return, the cycle runs to its end. *)
Lemma poll_cycle_completes (mon : UPSMonitor V) (v : V) (tr : list event) :
  all_return rt mon →
  ∃ st', poll_cycle (traced_runtime rt) (observe mon v tr) = (Ok tt, st').
Proof.
  intros (Hob & Hlow & Hcharge & Hstatus & Hpower & Hsend & Hlog & Hprint & Hsleep).
  open_monitor mon rt. cbn in *.
  repeat first
    [ match goal with
      | |- context [match ?m ?v with pair _ _ => _ end] =>
          lazymatch m with
          | context [match _ with _ => _ end] => fail
          | _ =>
              let Hr := fresh in
              assert (Hr : ∃ a v', m v = (Ok a, v'))
                by first [ apply Hob | apply Hlow | apply Hcharge | apply Hstatus
                         | apply Hpower | apply Hsend | apply Hlog | apply Hprint
                         | apply Hsleep ];
              destruct Hr as (? & ? & ->)
          end
      end; cbn
    | next_test; cbn ].
  all: match goal with |- ∃ _, (Ok ?a, _) = _ => destruct a end; eauto.
Qed.

(** C1. A poll cycle runs to its end when no collaborator raises.  In a
    poll cycle that runs to its end, a notification titled "Power outage!"
    is sent once if the prior [last_ups_on_battery_status] is false and
    the reading of [is_ups_on_battery] is true, and not at all otherwise;
    one titled "Power restoration!" is sent once if the prior status is
    true and the reading false, and not at all otherwise; when prior
    status and reading agree nothing is sent. *)
Theorem poll_cycle_notifies (mon : UPSMonitor V) (v : V) (tr : list event) :
  (all_return rt mon →
   ∃ st', poll_cycle (traced_runtime rt) (observe mon v tr) = (Ok tt, st'))
  ∧ ∀ st' : State (Traced V),
      poll_cycle (traced_runtime rt) (observe mon v tr) = (Ok tt, st') →
      ∃ (cur : bool) (v1 : V) (new : list event),
        is_ups_on_battery (nut_client mon) v = (Ok cur, v1)
        ∧ trace (world st') = (tr ++ new)%list
        ∧ notified "Power outage!" new
          = (if negb (last_ups_on_battery_status mon) && cur then 1 else 0)%nat
        ∧ notified "Power restoration!" new
          = (if last_ups_on_battery_status mon && negb cur then 1 else 0)%nat
        ∧ (last_ups_on_battery_status mon = cur → sent_titles new = []).
Proof.
  split.
  - apply poll_cycle_completes.
  - apply completed_cycle_notifies.
Qed.

(** C9. A poll cycle leaves the collaborator fields of the monitor as
    they were.  Once the reading [cur] is taken: a cycle that gets to
    [time.sleep] has stored [cur] in [last_ups_on_battery_status], whether
    or not there was a transition; and unless the cycle is a power outage
    (prior status false, reading true), so in particular in every power
    restoration cycle, [last_ups_low_battery_status] keeps its value. *)
Theorem poll_cycle_frame
    (mon : UPSMonitor V) (v : V) (tr : list event)
    (r : outcome unit) (st' : State (Traced V)) :
  poll_cycle (traced_runtime rt) (observe mon v tr) = (r, st') →
  nut_client (self st') = nut_client (observed mon)
  ∧ telegram_notifier (self st') = telegram_notifier (observed mon)
  ∧ logger (self st') = logger (observed mon)
  ∧ (∀ (cur : bool) (v1 : V),
       is_ups_on_battery (nut_client mon) v = (Ok cur, v1) →
       (r = Ok tt ∨ last (trace (world st')) = Some (CallSleep 2) →
        last_ups_on_battery_status (self st') = cur)
       ∧ (last_ups_on_battery_status mon = true ∨ cur = false →
          last_ups_low_battery_status (self st') = last_ups_low_battery_status mon))
  ∧ (∀ (e : exn) (v1 : V),
       is_ups_on_battery (nut_client mon) v = (Raise e, v1) →
       self st' = observed mon).
Proof.
  open_monitor mon rt. run_calls.
  all: intros Hend; simplify_eq; cbn.
  all: repeat split; try done.
  all: intros; simplify_eq; try done.
  all: match goal with
       | Hor : _ ∨ _ |- _ =>
           destruct Hor as [Hor | Hor];
           [done | first [done | by rewrite last_snoc in Hor]]
       end.
Qed.

(** The notifications of a power outage cycle that runs to its end: the
    outage notice, then the low battery notice exactly when the re-check
    answered true (the answer is what the cycle stores in
    [last_ups_low_battery_status]) and the flag was clear before. *)
Lemma outage_cycle_titles
    (mon : UPSMonitor V) (v v1 : V) (tr : list event) (st' : State (Traced V)) :
  poll_cycle (traced_runtime rt) (observe mon v tr) = (Ok tt, st') →
  last_ups_on_battery_status mon = false →
  is_ups_on_battery (nut_client mon) v = (Ok true, v1) →
  ∃ new : list event,
    trace (world st') = (tr ++ new)%list
    ∧ sent_titles new
      = status_title "Power outage!"
        :: (if last_ups_low_battery_status (self st')
               && negb (last_ups_low_battery_status mon)
            then [status_title "Low battery!"] else []).
Proof.
  open_monitor mon rt. run_calls.
  all: intros Hend Hprior Hread; simplify_eq; cbn.
  all: rewrite <- ?app_assoc; eexists; split; reflexivity.
Qed.

(** The low battery notice of a poll cycle that runs to its end. *)
Lemma completed_cycle_low_battery
    (mon : UPSMonitor V) (v : V) (tr : list event) (st' : State (Traced V)) :
  poll_cycle (traced_runtime rt) (observe mon v tr) = (Ok tt, st') →
  ∃ (cur : bool) (v1 : V) (new : list event),
    is_ups_on_battery (nut_client mon) v = (Ok cur, v1)
    ∧ trace (world st') = (tr ++ new)%list
    ∧ (last_ups_on_battery_status mon = false → cur = true →
       (∃ v2 v3 : V,
          is_ups_battery_low (nut_client mon) None v2
          = (Ok (last_ups_low_battery_status (self st')), v3))
       ∧ notified "Low battery!" new
         = (if last_ups_low_battery_status (self st')
               && negb (last_ups_low_battery_status mon)
            then 1 else 0)%nat)
    ∧ (last_ups_on_battery_status mon = true ∨ cur = false →
       notified "Low battery!" new = 0%nat
       ∧ last_ups_low_battery_status (self st') = last_ups_low_battery_status mon).
Proof.
  open_monitor mon rt. run_calls.
  all: intros Hend; simplify_eq; cbn.
  all: do 3 eexists; split; [reflexivity|]; rewrite <- ?app_assoc.
  all: split; [reflexivity|].
  all: split; [intros ??; simplify_eq | intros [?|?]; simplify_eq].
  all: split; first [by vm_compute | eauto].
Qed.

(** C2, as the code has it.  A poll cycle runs to its end when no
    collaborator raises.  In a cycle that runs to its end:
    - on the first poll of an outage (prior status false, reading true)
      the answer of the re-check [is_ups_battery_low()] is stored in
      [last_ups_low_battery_status], and the notice titled "Low battery!"
      is sent once if that answer is true and the flag was clear when the
      outage began, and not at all otherwise;
    - on every other poll, so on the later polls of the same outage, no
      such notice is sent and the flag keeps its value. *)
Theorem low_battery_notice_needs_clear_flag
    (mon : UPSMonitor V) (v : V) (tr : list event) :
  (all_return rt mon →
   ∃ st', poll_cycle (traced_runtime rt) (observe mon v tr) = (Ok tt, st'))
  ∧ ∀ st' : State (Traced V),
      poll_cycle (traced_runtime rt) (observe mon v tr) = (Ok tt, st') →
      ∃ (cur : bool) (v1 : V) (new : list event),
        is_ups_on_battery (nut_client mon) v = (Ok cur, v1)
        ∧ trace (world st') = (tr ++ new)%list
        ∧ (last_ups_on_battery_status mon = false → cur = true →
           (∃ v2 v3 : V,
              is_ups_battery_low (nut_client mon) None v2
              = (Ok (last_ups_low_battery_status (self st')), v3))
           ∧ notified "Low battery!" new
             = (if last_ups_low_battery_status (self st')
                   && negb (last_ups_low_battery_status mon)
                then 1 else 0)%nat)
        ∧ (last_ups_on_battery_status mon = true ∨ cur = false →
           notified "Low battery!" new = 0%nat
           ∧ last_ups_low_battery_status (self st')
             = last_ups_low_battery_status mon).
Proof.
  split.
  - apply poll_cycle_completes.
  - apply completed_cycle_low_battery.
Qed.

(** While [last_ups_low_battery_status] is set, no cycle sends the low
    battery notice, whatever the device reports. *)
Lemma set_flag_silences_low_battery
    (mon : UPSMonitor V) (v : V) (tr : list event) :
  last_ups_low_battery_status mon = true →
  ∃ new : list event,
    trace (world (poll_cycle (traced_runtime rt) (observe mon v tr)).2)
    = (tr ++ new)%list
    ∧ notified "Low battery!" new = 0%nat.
Proof.
  open_monitor mon rt. intros ->. run_calls.
  all: rewrite <- ?app_assoc; eexists; split; reflexivity.
Qed.

(** The calls of [is_ups_battery_low] made for one status notification:
    a single one, with [ignore_ob = True], before the message is sent; the
    message reports its answer. *)
Lemma status_notification_queries
    (title : string) (mon : UPSMonitor V) (v : V) (tr : list event) :
  ∃ new : list event,
    trace (world (send_ups_status_notification (traced_runtime rt) title
                    (observe mon v tr)).2)
    = (tr ++ new)%list
    ∧ low_queries new `prefix_of` [Asked (Some true); Sent (status_title title)]
    ∧ ((send_ups_status_notification (traced_runtime rt) title
          (observe mon v tr)).1 = Ok tt →
       low_queries new = [Asked (Some true); Sent (status_title title)]
       ∧ ∃ (charge : Z) (status : string) (low : bool) (power : Z) (v3 v4 : V),
           is_ups_battery_low (nut_client mon) (Some true) v3 = (Ok low, v4)
           ∧ sent_bodies new = [status_msg charge status low power]).
Proof.
  open_monitor mon rt. run_calls.
  all: rewrite <- ?app_assoc; eexists; split; [reflexivity|].
  all: cbn; split; [by eexists|]; intros [=].
  all: split; [reflexivity|].
  all: eexists _, _, _, _, _, _; split; [eassumption | reflexivity].
Qed.

(** The calls of [is_ups_battery_low] made by the outage handler: the
    one of the outage notice ([ignore_ob = True]), then the re-check,
    called without argument, then the one of the low battery notice if
    that is sent. *)
Lemma power_outage_queries (mon : UPSMonitor V) (v : V) (tr : list event) :
  ∃ new : list event,
    trace (world (handle_power_outage (traced_runtime rt) (observe mon v tr)).2)
    = (tr ++ new)%list
    ∧ low_queries new
      `prefix_of` [Asked (Some true); Sent (status_title "Power outage!");
                   Asked None;
                   Asked (Some true); Sent (status_title "Low battery!")]
    ∧ ((handle_power_outage (traced_runtime rt) (observe mon v tr)).1 = Ok tt →
       low_queries new
       = ([Asked (Some true); Sent (status_title "Power outage!"); Asked None]
          ++ (if last_ups_low_battery_status
                   (self (handle_power_outage (traced_runtime rt)
                            (observe mon v tr)).2)
                 && negb (last_ups_low_battery_status mon)
              then [Asked (Some true); Sent (status_title "Low battery!")]
              else []))%list).
Proof.
  open_monitor mon rt. run_calls.
  all: rewrite <- ?app_assoc; eexists; split; [reflexivity|].
  all: cbn; split; [by eexists|]; by intros [=].
Qed.

(** The state a completed cycle ends in, with the reading it took and the
    transition notice it sent. *)
Lemma poll_cycle_shape
    (mon : UPSMonitor V) (v : V) (tr : list event) (st' : State (Traced V)) :
  poll_cycle (traced_runtime rt) (observe mon v tr) = (Ok tt, st') →
  ∃ (cur low : bool) (v' : V) (new : list event),
    st' = observe (with_status mon cur low) v' (tr ++ new)
    ∧ readings new = [cur]
    ∧ filter (λ t, t ≠ status_title "Low battery!") (sent_titles new)
      = map status_title
          (Spec.transitions (last_ups_on_battery_status mon) [cur]).
Proof.
  open_monitor mon rt. run_calls.
  all: intros Hend; simplify_eq; cbn.
  all: eexists _, _, _, _; split; [rewrite <- ?app_assoc; reflexivity|].
  all: split; by vm_compute.
Qed.

(** Over any number of completed cycles, the outage and restoration
    notices sent are those of the changes in the sequence of readings: one
    per change, none for a repeated reading. *)
Lemma poll_loop_transitions
    (n : nat) (mon : UPSMonitor V) (v : V) (tr : list event)
    (st' : State (Traced V)) :
  poll_loop (traced_runtime rt) n (observe mon v tr) = (Ok tt, st') →
  ∃ new : list event,
    trace (world st') = (tr ++ new)%list
    ∧ length (readings new) = n
    ∧ filter (λ t, t ≠ status_title "Low battery!") (sent_titles new)
      = map status_title
          (Spec.transitions (last_ups_on_battery_status mon) (readings new)).
Proof.
  revert mon v tr. induction n as [|n IH]; intros mon v tr.
  - intros [= <-]. exists []. by rewrite app_nil_r.
  - cbn [poll_loop]. unfold bind at 1.
    destruct (poll_cycle _ _) as [[[]|e] st1] eqn:Hcycle; [|done].
    destruct (poll_cycle_shape _ _ _ _ Hcycle)
      as (cur & low & v1 & new1 & -> & Hread1 & Hsent1).
    intros Hloop. destruct (IH _ _ _ Hloop) as (new2 & Htr & Hlen & Hsent2).
    exists (new1 ++ new2)%list. split; [by rewrite Htr, app_assoc|].
    unfold readings, sent_titles in *. rewrite !omap_app, Hread1.
    split; [cbn; by rewrite Hlen|].
    rewrite filter_app, Hsent1, Hsent2. cbn [app Spec.transitions].
    rewrite app_nil_r, map_app. reflexivity.
Qed.

End Cycle.

(** C4. Each status notification, whatever its title, asks
    [is_ups_battery_low] once with [ignore_ob = True] and reports the
    answer.  The outage handler asks again for its re-check, this time
    without argument; on a [NUTClient] that is the default
    [ignore_ob = False].  These are the only calls, in this order. *)
Theorem low_battery_query_modes :
  (∀ (V : Type) (rt : Runtime V) (title : string)
     (mon : UPSMonitor V) (v : V) (tr : list event),
     ∃ new : list event,
       trace (world (send_ups_status_notification (traced_runtime rt) title
                       (observe mon v tr)).2)
       = (tr ++ new)%list
       ∧ low_queries new `prefix_of` [Asked (Some true); Sent (status_title title)]
       ∧ ((send_ups_status_notification (traced_runtime rt) title
             (observe mon v tr)).1 = Ok tt →
          low_queries new = [Asked (Some true); Sent (status_title title)]
          ∧ ∃ (charge : Z) (status : string) (low : bool) (power : Z) (v3 v4 : V),
              is_ups_battery_low (nut_client mon) (Some true) v3 = (Ok low, v4)
              ∧ sent_bodies new = [status_msg charge status low power]))
  ∧ (∀ (V : Type) (rt : Runtime V) (mon : UPSMonitor V) (v : V) (tr : list event),
       ∃ new : list event,
         trace (world (handle_power_outage (traced_runtime rt)
                         (observe mon v tr)).2)
         = (tr ++ new)%list
         ∧ low_queries new
           `prefix_of` [Asked (Some true); Sent (status_title "Power outage!");
                        Asked None;
                        Asked (Some true); Sent (status_title "Low battery!")]
         ∧ ((handle_power_outage (traced_runtime rt) (observe mon v tr)).1 = Ok tt →
            low_queries new
            = ([Asked (Some true); Sent (status_title "Power outage!"); Asked None]
               ++ (if last_ups_low_battery_status
                        (self (handle_power_outage (traced_runtime rt)
                                 (observe mon v tr)).2)
                      && negb (last_ups_low_battery_status mon)
                   then [Asked (Some true); Sent (status_title "Low battery!")]
                   else []))%list))
  ∧ (∀ (B : Builtins) (E : Type) (P : NUT.PyNUT E) (c : NUT.NUTClient),
       is_ups_battery_low (nut_client_of c) (Some true) = NUT.is_ups_battery_low c true
       ∧ is_ups_battery_low (nut_client_of c) None = NUT.is_ups_battery_low c false).
Proof.
  split; [|split].
  - intros. apply status_notification_queries.
  - intros. apply power_outage_queries.
  - intros. split; reflexivity.
Qed.

(** C2 as stated fails.  Two outages that both begin with the charge
    (15%) at or below the threshold (20%), with a restoration in between:
    the low battery notice is sent in the first outage and not in the
    second, where one notice per low outage would have it sent again. *)
Lemma second_low_outage_not_announced :
  run [low_outage; on_mains; low_outage]
  = (Ok tt, [status_title "Power outage!"; status_title "Low battery!";
             status_title "Power restoration!";
             status_title "Power outage!"])
  ∧ map status_title
        (Spec.notifications false [(true, true); (false, false); (true, true)])
    = [status_title "Power outage!"; status_title "Low battery!";
       status_title "Power restoration!";
       status_title "Power outage!"; status_title "Low battery!"]
  ∧ run [low_outage; on_mains; low_outage]
    ≠ (Ok tt, map status_title
                (Spec.notifications false
                   [(true, true); (false, false); (true, true)])).
Proof. split; [|split]; by vm_compute. Qed.

(** The scenario of the specification: three polls on mains, two on
    battery at 15%, then mains again. *)
Example end_to_end_scenario :
  run [on_mains; on_mains; on_mains; low_outage; low_outage;
       device "OL" "15" "20" "50"]
  = (Ok tt, [status_title "Power outage!"; status_title "Low battery!";
             status_title "Power restoration!"]).
Proof. by vm_compute. Qed.

(** *** The theorems above on the scripted device *)

Lemma poll_cycle_notifies_witness :
  ∃ st',
    poll_cycle (traced_runtime scripted_runtime)
      (observe fresh_monitor (at_device low_outage) []) = (Ok tt, st')
    ∧ notified "Power outage!" (trace (world st')) = 1%nat
    ∧ notified "Power restoration!" (trace (world st')) = 0%nat.
Proof.
  set (res := poll_cycle (traced_runtime scripted_runtime)
                (observe fresh_monitor (at_device low_outage) [])).
  assert (Hok : res.1 = Ok tt) by (vm_compute; reflexivity).
  assert (Hres : res = (Ok tt, res.2))
    by (rewrite <- Hok; apply surjective_pairing).
  exists res.2. split; [exact Hres|].
  destruct (proj2 (poll_cycle_notifies _ _ _ _) _ Hres)
    as (cur & v1 & new & Hread & Htr & Hout & Hback & _).
  vm_compute in Hread. injection Hread as <- _.
  rewrite Htr. split; [exact Hout | exact Hback].
Defined.

Lemma poll_cycle_frame_witness :
  let res := poll_cycle (traced_runtime scripted_runtime)
               (observe (monitor_in true true) (at_device on_mains) []) in
  res.1 = Ok tt
  ∧ last_ups_on_battery_status (self res.2) = false
  ∧ last_ups_low_battery_status (self res.2) = true.
Proof.
  intros res.
  assert (Hok : res.1 = Ok tt) by (vm_compute; reflexivity).
  assert (Hres : res = (Ok tt, res.2))
    by (rewrite <- Hok; apply surjective_pairing).
  assert (Hread : is_ups_on_battery (nut_client (monitor_in true true))
                    (at_device on_mains) = (Ok false, at_device on_mains))
    by (vm_compute; reflexivity).
  destruct (poll_cycle_frame _ _ _ _ _ _ Hres) as (_ & _ & _ & Hcur & _).
  destruct (Hcur _ _ Hread) as [Hon Hlow].
  split; [exact Hok|]. split.
  - apply Hon. by left.
  - apply Hlow. by left.
Defined.

Lemma low_battery_query_modes_witness :
  low_queries (trace (world (handle_power_outage (traced_runtime scripted_runtime)
                               (observe fresh_monitor (at_device low_outage) [])).2))
  = [Asked (Some true); Sent (status_title "Power outage!"); Asked None;
     Asked (Some true); Sent (status_title "Low battery!")].
Proof.
  destruct (proj1 (proj2 low_battery_query_modes) _ scripted_runtime fresh_monitor
              (at_device low_outage) []) as (new & Htr & _ & Hok).
  rewrite Htr, app_nil_l.
  rewrite Hok by (vm_compute; reflexivity).
  vm_compute; reflexivity.
Defined.

Lemma low_battery_notice_needs_clear_flag_witness :
  ∃ st',
    poll_cycle (traced_runtime scripted_runtime)
      (observe fresh_monitor (at_device low_outage) []) = (Ok tt, st')
    ∧ notified "Low battery!" (trace (world st')) = 1%nat.
Proof.
  set (res := poll_cycle (traced_runtime scripted_runtime)
                (observe fresh_monitor (at_device low_outage) [])).
  assert (Hok : res.1 = Ok tt) by (vm_compute; reflexivity).
  assert (Hres : res = (Ok tt, res.2))
    by (rewrite <- Hok; apply surjective_pairing).
  exists res.2. split; [exact Hres|].
  destruct (proj2 (low_battery_notice_needs_clear_flag _ _ _ _) _ Hres)
    as (cur & v1 & new & Hread & Htr & Hfirst & _).
  vm_compute in Hread. injection Hread as <- _.
  destruct (Hfirst eq_refl eq_refl) as [_ Hlow].
  rewrite Htr, app_nil_l, Hlow. vm_compute; reflexivity.
Defined.

End MonitorFacts.

(* ===================================================================== *)
(** ** Further properties of the device client *)
(* ===================================================================== *)

Module NUTMore.
Import NUT System NUTFacts Devices.

Section Decode.
Context {B : Builtins}.

Lemma decode_items_ok (items : byte_dict) (kvs : list (string * string))
    (acc : gmap string string) :
  Forall2 decodes_to items kvs →
  decode_items items acc = Ok (list_to_map (reverse kvs) ∪ acc).
Proof.
  intros Hdec. revert acc.
  induction Hdec as [|[key value] [k v] items kvs [Hk Hv] _ IH]; intros acc.
  - cbn. by rewrite (left_id_L ∅ (∪)).
  - cbn in Hk, Hv. cbn [decode_items]. rewrite Hk, Hv, IH.
    rewrite reverse_cons, list_to_map_app.
    rewrite <- (assoc_L (∪)). do 2 f_equal.
    change (list_to_map [(k, v)]) with (<[k:=v]> (∅ : gmap string string)).
    by rewrite insert_empty, <- insert_union_singleton_l.
Qed.

Lemma decode_items_fails (pre post : byte_dict) (key value : string)
    (kvs : list (string * string)) (e : exn) (acc : gmap string string) :
  Forall2 decodes_to pre kvs →
  bytes_decode key = Raise e
  ∨ (∃ k, bytes_decode key = Ok k ∧ bytes_decode value = Raise e) →
  decode_items (pre ++ (key, value) :: post)%list acc = Raise e.
Proof.
  intros Hdec Hbad. revert acc.
  induction Hdec as [|[key' value'] [k v] items kvs' [Hk Hv] _ IH]; intros acc.
  - cbn. destruct Hbad as [-> | (k & -> & ->)]; done.
  - cbn in Hk, Hv. cbn. by rewrite Hk, Hv, IH.
Qed.

(** X1. [__decode_byte_dict] on a listing whose items all decode returns
    the dictionary of the decoded pairs, where an item overrides the
    earlier items with the same decoded key; on a listing with an item
    whose key or value does not decode it raises the error of the first
    such item. *)
Theorem decode_byte_dict_last_wins (items : byte_dict) :
  (∀ kvs : list (string * string),
     Forall2 decodes_to items kvs →
     __decode_byte_dict items = Ok (list_to_map (reverse kvs))
     ∧ ∀ (i : nat) (k v : string),
         kvs !! i = Some (k, v) →
         (∀ (j : nat) (v' : string), (i < j)%nat → kvs !! j ≠ Some (k, v')) →
         list_to_map (M := gmap string string) (reverse kvs) !! k = Some v)
  ∧ (∀ (pre post : byte_dict) (key value : string)
       (kvs : list (string * string)) (e : exn),
       items = (pre ++ (key, value) :: post)%list →
       Forall2 decodes_to pre kvs →
       bytes_decode key = Raise e
       ∨ (∃ k, bytes_decode key = Ok k ∧ bytes_decode value = Raise e) →
       __decode_byte_dict items = Raise e).
Proof.
  split.
  - intros kvs Hdec. split.
    + unfold __decode_byte_dict. rewrite (decode_items_ok _ _ _ Hdec).
      by rewrite (right_id_L ∅ (∪)).
    + intros i k v Hi Hlast.
      assert (Hlen : length (take i kvs) = i)
        by (apply length_take_le, Nat.lt_le_incl, (lookup_lt_Some _ _ _ Hi)).
      apply take_drop_middle in Hi. rewrite <- Hi in Hlast |- *.
      rewrite reverse_app, reverse_cons, <- (assoc_L (++)), list_to_map_app.
      apply lookup_union_Some_raw. right. split.
      * apply not_elem_of_list_to_map_1. rewrite list_elem_of_fmap.
        intros ([k' v'] & -> & Hin). cbn in Hin.
        rewrite elem_of_reverse in Hin.
        apply list_elem_of_lookup in Hin as [j Hj].
        apply (Hlast (S (length (take i kvs) + j))%nat v'); [lia|].
        rewrite lookup_app_r by lia.
        replace (S (length (take i kvs) + j) - length (take i kvs))%nat with (S j) by lia.
        exact Hj.
      * cbn. apply lookup_insert_eq.
  - intros pre post key value kvs e -> Hdec Hbad.
    by eapply decode_items_fails.
Qed.

End Decode.

Section Queries.
Context {B : Builtins} {E : Type} {P : PyNUT E}.

(** X2. [get_ups_read_write_vars] and [get_ups_list] fail soft as
    [get_ups_vars] does: an [Exception] raised by [GetRWVars] or
    [GetUPSList] is caught, printed on one line, and the empty mapping is
    returned. *)
Theorem other_getters_fail_soft (self : NUTClient) (w : World E) (e : exn) (s1 : E) :
  is_Exception e = true →
  (GetRWVars (client self) (ups_name self) (server w) = (Raise e, s1) →
   get_ups_read_write_vars self w
   = (Ok ∅, {| server := s1;
               stdout := stdout w ++ ["Error occurred: " +:+ exc_msg e] |}))
  ∧ (GetUPSList (client self) (server w) = (Raise e, s1) →
     get_ups_list self w
     = (Ok ∅, {| server := s1;
                 stdout := stdout w ++ ["Error occurred: " +:+ exc_msg e] |})).
Proof.
  intros Hexc. split; intros Hraise.
  - unfold get_ups_read_write_vars, bind.
    by rewrite (handle_operation_caught _ _ _ _ Hraise Hexc).
  - unfold get_ups_list, bind.
    by rewrite (handle_operation_caught _ _ _ _ Hraise Hexc).
Qed.

(** Whatever [get_ups_vars] raises, every query built on it raises. *)
Lemma raise_through (self : NUTClient) (w w1 : World E) (e : exn) :
  get_ups_vars self w = (Raise e, w1) →
  is_ups_on_battery self w = (Raise e, w1)
  ∧ (∀ ignore_ob, is_ups_battery_low self ignore_ob w = (Raise e, w1))
  ∧ get_battery_charge_percentage self w = (Raise e, w1)
  ∧ get_ups_status self w = (Raise e, w1)
  ∧ get_current_power_draw self w = (Raise e, w1).
Proof.
  intros Hv.
  assert (Hob : is_ups_on_battery self w = (Raise e, w1))
    by (unfold is_ups_on_battery, bind; by rewrite Hv).
  repeat split; [exact Hob|intros ignore_ob|..].
  - unfold is_ups_battery_low, bind. by rewrite Hob.
  - unfold get_battery_charge_percentage, bind. by rewrite Hv.
  - unfold get_ups_status, bind. by rewrite Hv.
  - unfold get_current_power_draw, bind. by rewrite Hv.
Qed.

(** X3. Failing soft covers the protocol call only.  When the listing
    arrives but does not decode, [get_ups_vars] raises the decoding error,
    prints nothing, and every query built on it raises the same error. *)
Theorem undecodable_listing_raises
    (self : NUTClient) (w : World E) (items : byte_dict) (e : exn) (s1 : E) :
  GetUPSVars (client self) (ups_name self) (server w) = (Ok items, s1) →
  __decode_byte_dict items = Raise e →
  let w1 := {| server := s1; stdout := stdout w |} in
  get_ups_vars self w = (Raise e, w1)
  ∧ is_ups_on_battery self w = (Raise e, w1)
  ∧ (∀ ignore_ob, is_ups_battery_low self ignore_ob w = (Raise e, w1))
  ∧ get_battery_charge_percentage self w = (Raise e, w1)
  ∧ get_ups_status self w = (Raise e, w1)
  ∧ get_current_power_draw self w = (Raise e, w1).
Proof.
  intros Hok Hdec w1.
  assert (Hv : get_ups_vars self w = (Raise e, w1)).
  { unfold get_ups_vars, bind. rewrite (handle_operation_ok _ _ _ _ Hok).
    destruct items as [|item items]; [done|].
    cbn [response_truthy from_option id]. unfold of_outcome. by rewrite Hdec. }
  split; [exact Hv | by apply raise_through].
Qed.

(** X4. [__handle_operation] catches [Exception] and nothing else: a
    [KeyboardInterrupt] or [SystemExit] raised during [GetUPSVars] goes
    through [get_ups_vars] and through every query built on it, and nothing
    is printed. *)
Theorem interrupt_goes_through
    (self : NUTClient) (w : World E) (e : exn) (s1 : E) :
  GetUPSVars (client self) (ups_name self) (server w) = (Raise e, s1) →
  is_Exception e = false →
  let w1 := {| server := s1; stdout := stdout w |} in
  get_ups_vars self w = (Raise e, w1)
  ∧ is_ups_on_battery self w = (Raise e, w1)
  ∧ (∀ ignore_ob, is_ups_battery_low self ignore_ob w = (Raise e, w1))
  ∧ get_battery_charge_percentage self w = (Raise e, w1)
  ∧ get_ups_status self w = (Raise e, w1)
  ∧ get_current_power_draw self w = (Raise e, w1).
Proof.
  intros Hraise Hexc w1.
  assert (Hv : get_ups_vars self w = (Raise e, w1)).
  { unfold get_ups_vars, bind.
    by rewrite (handle_operation_escapes _ _ _ _ Hraise Hexc). }
  split; [exact Hv | by apply raise_through].
Qed.

(** A listing that the server hands out without changing state is what
    the getter returns, and the world stays as it was. *)
Lemma steady_get_ups_vars (self : NUTClient) (w : World E)
    (items : byte_dict) (vars : gmap string string) :
  GetUPSVars (client self) (ups_name self) (server w) = (Ok items, server w) →
  __decode_byte_dict items = Ok vars →
  get_ups_vars self w = (Ok vars, w).
Proof.
  intros Hok Hdec. unfold get_ups_vars, bind.
  rewrite (handle_operation_ok _ _ _ _ Hok). destruct w as [s out].
  destruct items as [|item items]; cbn [response_truthy from_option id server stdout].
  - by injection Hdec as <-.
  - unfold of_outcome. by rewrite Hdec.
Qed.

Lemma steady_get_ups_read_write_vars (self : NUTClient) (w : World E)
    (items : byte_dict) (vars : gmap string string) :
  GetRWVars (client self) (ups_name self) (server w) = (Ok items, server w) →
  __decode_byte_dict items = Ok vars →
  get_ups_read_write_vars self w = (Ok vars, w).
Proof.
  intros Hok Hdec. unfold get_ups_read_write_vars, bind.
  rewrite (handle_operation_ok _ _ _ _ Hok). destruct w as [s out].
  destruct items as [|item items]; cbn [response_truthy from_option id server stdout].
  - by injection Hdec as <-.
  - unfold of_outcome. by rewrite Hdec.
Qed.

Lemma int_of_get_empty (key : string) :
  int_of_get ((∅ : gmap string string) !! key) = Ok 0.
Proof. by rewrite lookup_empty. Qed.

Lemma charge_of_vars (self : NUTClient) (w w1 : World E) (vars : gmap string string) :
  get_ups_vars self w = (Ok vars, w1) →
  get_battery_charge_percentage self w
  = (int_of_get (vars !! "battery.charge"), w1).
Proof.
  intros Hv. unfold get_battery_charge_percentage, bind. rewrite Hv.
  destruct (dict_truthy vars) eqn:Ht; [done|].
  apply bool_decide_eq_false in Ht.
  assert (vars = ∅) as -> by (by destruct (decide (vars = ∅)); [|exfalso; auto]).
  by rewrite int_of_get_empty.
Qed.

Lemma low_of_vars (self : NUTClient) (w w1 : World E) (vars : gmap string string) :
  get_ups_read_write_vars self w = (Ok vars, w1) →
  get_battery_charge_low_percentage self w
  = (int_of_get (vars !! "battery.charge.low"), w1).
Proof.
  intros Hv. unfold get_battery_charge_low_percentage, bind. rewrite Hv.
  destruct (dict_truthy vars) eqn:Ht; [done|].
  apply bool_decide_eq_false in Ht.
  assert (vars = ∅) as -> by (by destruct (decide (vars = ∅)); [|exfalso; auto]).
  by rewrite int_of_get_empty.
Qed.

Lemma steady_is_ups_battery_low (self : NUTClient) (w : World E)
    (items rw_items : byte_dict) (vars rw_vars : gmap string string)
    (status : string) (charge low : Z) (ignore_ob : bool) :
  GetUPSVars (client self) (ups_name self) (server w) = (Ok items, server w) →
  GetRWVars (client self) (ups_name self) (server w) = (Ok rw_items, server w) →
  __decode_byte_dict items = Ok vars →
  __decode_byte_dict rw_items = Ok rw_vars →
  vars !! "ups.status" = Some status →
  int_of_get (vars !! "battery.charge") = Ok charge →
  int_of_get (rw_vars !! "battery.charge.low") = Ok low →
  is_ups_on_battery self w = (Ok (str_in "OB" status), w)
  ∧ is_ups_battery_low self ignore_ob w
    = (Ok ((str_in "OB" status || ignore_ob) && (charge <=? low)), w).
Proof.
  intros Hv Hrw Hdv Hdrw Hstatus Hcharge Hlow.
  pose proof (steady_get_ups_vars _ _ _ _ Hv Hdv) as Hvars.
  pose proof (steady_get_ups_read_write_vars _ _ _ _ Hrw Hdrw) as Hrwvars.
  assert (Hob : is_ups_on_battery self w = (Ok (str_in "OB" status), w)).
  { rewrite (is_ups_on_battery_of_vars _ _ _ _ Hvars), Hstatus.
    by rewrite (dict_truthy_lookup _ _ _ Hstatus). }
  split; [exact Hob|].
  unfold is_ups_battery_low, bind. rewrite Hob.
  destruct (str_in "OB" status), ignore_ob; cbn [negb andb orb]; try done.
  all: by rewrite (charge_of_vars _ _ _ _ Hvars), Hcharge,
         (low_of_vars _ _ _ _ Hrwvars), Hlow.
Qed.

(** X5. On a server that hands out its two listings without changing
    state, the queries are read-only and describe one and the same
    listing: each leaves the world as it was and prints nothing; the
    charge and the threshold are the integers of [battery.charge] and
    [battery.charge.low] (0 for an absent key), the power is the integer
    of [ups.realpower] ("0" for an absent key), and, where [ups.status] is
    present and charge and threshold are integers, [is_ups_battery_low]
    is true exactly when the charge is at most the threshold and the UPS
    is on battery or [ignore_ob] is set. *)
Theorem steady_listing_queries (self : NUTClient) (w : World E)
    (items rw_items : byte_dict) (vars rw_vars : gmap string string) :
  GetUPSVars (client self) (ups_name self) (server w) = (Ok items, server w) →
  GetRWVars (client self) (ups_name self) (server w) = (Ok rw_items, server w) →
  __decode_byte_dict items = Ok vars →
  __decode_byte_dict rw_items = Ok rw_vars →
  get_ups_vars self w = (Ok vars, w)
  ∧ get_ups_read_write_vars self w = (Ok rw_vars, w)
  ∧ get_battery_charge_percentage self w
    = (int_of_get (vars !! "battery.charge"), w)
  ∧ get_battery_charge_low_percentage self w
    = (int_of_get (rw_vars !! "battery.charge.low"), w)
  ∧ get_current_power_draw self w
    = (int (default "0" (vars !! "ups.realpower")), w)
  ∧ get_ups_status self w = (Ok (Spec.status_description vars), w)
  ∧ ∀ (status : string) (charge low : Z) (ignore_ob : bool),
      vars !! "ups.status" = Some status →
      int_of_get (vars !! "battery.charge") = Ok charge →
      int_of_get (rw_vars !! "battery.charge.low") = Ok low →
      is_ups_on_battery self w = (Ok (str_in "OB" status), w)
      ∧ is_ups_battery_low self ignore_ob w
        = (Ok ((str_in "OB" status || ignore_ob) && (charge <=? low)), w).
Proof.
  intros Hv Hrw Hdv Hdrw.
  pose proof (steady_get_ups_vars _ _ _ _ Hv Hdv) as Hvars.
  pose proof (steady_get_ups_read_write_vars _ _ _ _ Hrw Hdrw) as Hrwvars.
  repeat split; try done.
  - by apply charge_of_vars.
  - by apply low_of_vars.
  - unfold get_current_power_draw, bind. by rewrite Hvars.
  - by apply get_ups_status_of_vars.
  - by eapply steady_is_ups_battery_low.
  - by eapply steady_is_ups_battery_low.
Qed.

(** With both listings out of reach, each getter returns the empty
    mapping. *)
Lemma unreachable_get_ups_vars (self : NUTClient) :
  (∀ s, ∃ e s', GetUPSVars (client self) (ups_name self) s = (Raise e, s')
                ∧ is_Exception e = true) →
  ∀ w, ∃ w', get_ups_vars self w = (Ok ∅, w').
Proof.
  intros Hdown w. destruct (Hdown (server w)) as (e & s' & Hraise & Hexc).
  eexists. unfold get_ups_vars, bind.
  by rewrite (handle_operation_caught _ _ _ _ Hraise Hexc).
Qed.

Lemma unreachable_get_ups_read_write_vars (self : NUTClient) :
  (∀ s, ∃ e s', GetRWVars (client self) (ups_name self) s = (Raise e, s')
                ∧ is_Exception e = true) →
  ∀ w, ∃ w', get_ups_read_write_vars self w = (Ok ∅, w').
Proof.
  intros Hdown w. destruct (Hdown (server w)) as (e & s' & Hraise & Hexc).
  eexists. unfold get_ups_read_write_vars, bind.
  by rewrite (handle_operation_caught _ _ _ _ Hraise Hexc).
Qed.

Lemma unreachable_queries (self : NUTClient) :
  (∀ s, ∃ e s', GetUPSVars (client self) (ups_name self) s = (Raise e, s')
                ∧ is_Exception e = true) →
  (∀ s, ∃ e s', GetRWVars (client self) (ups_name self) s = (Raise e, s')
                ∧ is_Exception e = true) →
  ∀ w,
    (∃ w', is_ups_on_battery self w = (Ok false, w'))
    ∧ (∃ w', get_battery_charge_percentage self w = (Ok 0, w'))
    ∧ (∃ w', get_battery_charge_low_percentage self w = (Ok 0, w'))
    ∧ (∃ w', is_ups_battery_low self false w = (Ok false, w'))
    ∧ (∃ w', is_ups_battery_low self true w = (Ok true, w'))
    ∧ (∃ w', get_ups_status self w = (Ok "Unknown status", w'))
    ∧ (∃ w', get_current_power_draw self w = (int "0", w')).
Proof.
  intros Hvars Hrw.
  assert (Hob : ∀ w, ∃ w', is_ups_on_battery self w = (Ok false, w')).
  { intros w. destruct (unreachable_get_ups_vars _ Hvars w) as [w' Hv].
    exists w'. by rewrite (is_ups_on_battery_of_vars _ _ _ _ Hv), dict_truthy_empty. }
  assert (Hcharge : ∀ w, ∃ w', get_battery_charge_percentage self w = (Ok 0, w')).
  { intros w. destruct (unreachable_get_ups_vars _ Hvars w) as [w' Hv].
    exists w'. by rewrite (charge_of_vars _ _ _ _ Hv), int_of_get_empty. }
  assert (Hlow : ∀ w, ∃ w', get_battery_charge_low_percentage self w = (Ok 0, w')).
  { intros w. destruct (unreachable_get_ups_read_write_vars _ Hrw w) as [w' Hv].
    exists w'. by rewrite (low_of_vars _ _ _ _ Hv), int_of_get_empty. }
  intros w. repeat split; [done|done|done|..].
  - destruct (Hob w) as [w1 H1]. exists w1.
    unfold is_ups_battery_low, bind. by rewrite H1.
  - destruct (Hob w) as [w1 H1], (Hcharge w1) as [w2 H2], (Hlow w2) as [w3 H3].
    exists w3. unfold is_ups_battery_low, bind.
    rewrite H1. cbn [negb andb]. by rewrite H2, H3.
  - destruct (unreachable_get_ups_vars _ Hvars w) as [w' Hv]. exists w'.
    rewrite (get_ups_status_of_vars _ _ _ _ Hv).
    unfold Spec.status_description. by rewrite lookup_empty.
  - destruct (unreachable_get_ups_vars _ Hvars w) as [w' Hv]. exists w'.
    unfold get_current_power_draw, bind. rewrite Hv.
    unfold dict_get. by rewrite lookup_empty.
Qed.

(** X6. While the server is out of reach (both listing calls raise an
    [Exception]), no query raises and each gives its default: not on
    battery, charge 0, threshold 0, status "Unknown status", power
    [int("0")].  The strict [is_ups_battery_low()] is false, but with
    [ignore_ob] it is true, since 0 <= 0: the status report then says the
    battery is low. *)
Theorem unreachable_server_defaults (self : NUTClient) (w : World E) :
  (∀ s, ∃ e s', GetUPSVars (client self) (ups_name self) s = (Raise e, s')
                ∧ is_Exception e = true) →
  (∀ s, ∃ e s', GetRWVars (client self) (ups_name self) s = (Raise e, s')
                ∧ is_Exception e = true) →
  (is_ups_on_battery self w).1 = Ok false
  ∧ (get_battery_charge_percentage self w).1 = Ok 0
  ∧ (get_battery_charge_low_percentage self w).1 = Ok 0
  ∧ (is_ups_battery_low self false w).1 = Ok false
  ∧ (is_ups_battery_low self true w).1 = Ok true
  ∧ (get_ups_status self w).1 = Ok "Unknown status"
  ∧ (get_current_power_draw self w).1 = int "0".
Proof.
  intros Hvars Hrw.
  destruct (unreachable_queries _ Hvars Hrw w)
    as ([? ->] & [? ->] & [? ->] & [? ->] & [? ->] & [? ->] & [? ->]).
  done.
Qed.

End Queries.

(** *** The theorems above at concrete devices *)

Lemma decode_byte_dict_last_wins_witness :
  let items := [("battery.charge", "80"); ("ups.status", "OL");
                ("battery.charge", "75")] in
  Forall2 decodes_to items items
  ∧ __decode_byte_dict items = Ok (list_to_map (reverse items))
  ∧ list_to_map (M := gmap string string) (reverse items) !! "battery.charge"
    = Some "75".
Proof.
  intros items.
  assert (Hdec : Forall2 decodes_to items items) by (by repeat constructor).
  destruct (proj1 (decode_byte_dict_last_wins items) items Hdec) as [Heq Hlast].
  split; [exact Hdec|]. split; [exact Heq|].
  apply (Hlast 2%nat "battery.charge" "75"); [reflexivity|].
  intros j v' Hj. destruct j as [|[|[|j]]]; [lia|lia|lia|done].
Defined.

Lemma other_getters_fail_soft_witness :
  get_ups_read_write_vars the_client (at_device offline)
  = (Ok ∅, {| server := [offline];
              stdout := ["Error occurred: Connection refused"] |})
  ∧ get_ups_list the_client (at_device offline)
    = (Ok ∅, {| server := [offline];
                stdout := ["Error occurred: Connection refused"] |}).
Proof.
  destruct (other_getters_fail_soft the_client (at_device offline)
              (Exn (OtherException "PyNUTError") "Connection refused")
              [offline] eq_refl) as [Hrw Hlist].
  split; [apply Hrw | apply Hlist]; reflexivity.
Defined.

Lemma undecodable_listing_raises_witness :
  ∃ e, exc_type e = UnicodeDecodeError
       ∧ get_ups_vars (H0 := constant_server garbled) the_client blank
         = (Raise e, blank)
       ∧ get_ups_status (H0 := constant_server garbled) the_client blank
         = (Raise e, blank).
Proof.
  exists (Exn UnicodeDecodeError "'utf-8' codec can't decode byte").
  split; [reflexivity|].
  assert (Hdec : __decode_byte_dict
                   [(String "255"%char "", "OL"); ("battery.charge", "80")]
                 = Raise (Exn UnicodeDecodeError "'utf-8' codec can't decode byte"))
    by (vm_compute; reflexivity).
  destruct (undecodable_listing_raises (P := constant_server garbled)
              the_client blank _ _ tt eq_refl Hdec) as (Hv & _ & _ & _ & Hs & _).
  split; [exact Hv | exact Hs].
Defined.

Lemma interrupt_goes_through_witness :
  get_ups_vars (H0 := constant_server interrupted) the_client blank
  = (Raise (Exn KeyboardInterrupt ""), blank)
  ∧ is_ups_on_battery (H0 := constant_server interrupted) the_client blank
    = (Raise (Exn KeyboardInterrupt ""), blank).
Proof.
  destruct (interrupt_goes_through (P := constant_server interrupted)
              the_client blank (Exn KeyboardInterrupt "") tt eq_refl eq_refl)
    as (Hv & Hob & _).
  split; [exact Hv | exact Hob].
Defined.

Lemma steady_listing_queries_witness :
  get_battery_charge_percentage the_client (at_device low_outage)
  = (Ok 15, at_device low_outage)
  ∧ get_battery_charge_low_percentage the_client (at_device low_outage)
    = (Ok 20, at_device low_outage)
  ∧ get_current_power_draw the_client (at_device low_outage)
    = (Ok 50, at_device low_outage)
  ∧ is_ups_battery_low the_client false (at_device low_outage)
    = (Ok true, at_device low_outage).
Proof.
  set (items := [("ups.status", "OB"); ("battery.charge", "15");
                 ("ups.realpower", "50")]).
  set (vars := <["ups.realpower" := "50"]>
                 (<["battery.charge" := "15"]>
                    ({[ "ups.status" := "OB" ]} : gmap string string))).
  assert (Hv : GetUPSVars (client the_client) (ups_name the_client)
                 (server (at_device low_outage))
               = (Ok items, server (at_device low_outage))) by reflexivity.
  assert (Hrw : GetRWVars (client the_client) (ups_name the_client)
                  (server (at_device low_outage))
                = (Ok [("battery.charge.low", "20")], server (at_device low_outage)))
    by reflexivity.
  assert (Hdv : __decode_byte_dict items = Ok vars) by reflexivity.
  assert (Hdrw : __decode_byte_dict [("battery.charge.low", "20")]
                 = Ok {[ "battery.charge.low" := "20" ]}) by reflexivity.
  destruct (steady_listing_queries the_client (at_device low_outage) _ _ _ _
              Hv Hrw Hdv Hdrw)
    as (_ & _ & Hcharge & Hlow & Hpower & _ & Hcases).
  split; [exact Hcharge|]. split; [exact Hlow|]. split; [exact Hpower|].
  apply (proj2 (Hcases "OB" 15 20 false eq_refl eq_refl eq_refl)).
Defined.

Lemma unreachable_server_defaults_witness :
  (is_ups_battery_low (H0 := constant_server offline) the_client false blank).1
  = Ok false
  ∧ (is_ups_battery_low (H0 := constant_server offline) the_client true blank).1
    = Ok true
  ∧ (get_ups_status (H0 := constant_server offline) the_client blank).1
    = Ok "Unknown status".
Proof.
  assert (Hvars : ∀ s, ∃ e s',
             GetUPSVars (PyNUT := constant_server offline)
               (client the_client) (ups_name the_client) s = (Raise e, s')
             ∧ is_Exception e = true).
  { intros s. by exists (Exn (OtherException "PyNUTError") "Connection refused"), s. }
  assert (Hrw : ∀ s, ∃ e s',
             GetRWVars (PyNUT := constant_server offline)
               (client the_client) (ups_name the_client) s = (Raise e, s')
             ∧ is_Exception e = true).
  { intros s. by exists (Exn (OtherException "PyNUTError") "Connection refused"), s. }
  destruct (unreachable_server_defaults (P := constant_server offline)
              the_client blank Hvars Hrw)
    as (_ & _ & _ & Hstrict & Hloose & Hstatus & _).
  split; [exact Hstrict|]. split; [exact Hloose | exact Hstatus].
Defined.

End NUTMore.

(* ===================================================================== *)
(** ** Properties of the notifier *)
(* ===================================================================== *)

Module TelegramFacts.
Import Monitor Trace Telegram.

Section Delivery.
Context {W R : Type} {Q : Requests W R} (rt : Runtime W).

Ltac unfold_notifier :=
  unfold send_notification, try_except, handle_logging, wired_notifier,
    wired_logger, wired_runtime, log_record, log_call, request_url, request_data,
    bind, ret, of_outcome, wired in *.

(** X7. [send_notification] makes exactly one request: a POST of the chat
    id, the framed text and the parse mode "HTML" to the bot's
    [sendMessage] address.  If the response passes [raise_for_status] it
    logs the success at level INFO and returns.  If the request raises a
    [RequestException], or the response fails [raise_for_status], it logs
    the failure with the error's text at level ERROR and returns what that
    logging call returns: the failure is not raised to the caller, and the
    request is not repeated. *)
Theorem send_notification_best_effort
    (self : TelegramNotifier W) (msg_title msg : str) (v v1 v2 : W)
    (wr : list wire_event) :
  HTTPError_is_RequestException →
  let run := send_notification (wired_runtime rt) (wired_notifier self)
               msg_title msg {| under := v; wire := wr |} in
  let request := Posted (request_url self) (request_data self msg_title msg) in
  let sent := "Telegram notification has been sent successfully" in
  let failed (e : exn) := "Failed to send Telegram notification: " +:+ exc_msg e in
  (∀ r : R,
     post (request_url self) (request_data self msg_title msg) v = (Ok r, v1) →
     raise_for_status r = Ok tt →
     log_call rt self INFO sent v1 = (Ok tt, v2) →
     run = (Ok tt, {| under := v2;
                      wire := wr ++ [request; log_record self INFO sent] |}))
  ∧ (∀ (r : R) (e : exn) (o : outcome unit),
       post (request_url self) (request_data self msg_title msg) v = (Ok r, v1) →
       raise_for_status r = Raise e →
       log_call rt self ERROR (failed e) v1 = (o, v2) →
       run = (o, {| under := v2;
                    wire := wr ++ [request; log_record self ERROR (failed e)] |}))
  ∧ (∀ (e : exn) (o : outcome unit),
       post (request_url self) (request_data self msg_title msg) v = (Raise e, v1) →
       is_RequestException e = true →
       log_call rt self ERROR (failed e) v1 = (o, v2) →
       run = (o, {| under := v2;
                    wire := wr ++ [request; log_record self ERROR (failed e)] |})).
Proof.
  intros Hhttp run request sent failed. subst run request sent failed.
  destruct self as [token chat [truthy log]].
  unfold_notifier. cbn. unfold wired. cbn.
  repeat split.
  - intros r Hpost Hstatus Hlog. rewrite Hpost, Hstatus.
    destruct truthy; cbn in *; rewrite Hlog; by rewrite <- app_assoc.
  - intros r e o Hpost Hstatus Hlog. rewrite Hpost, Hstatus.
    cbn. rewrite (Hhttp _ _ Hstatus).
    destruct truthy; cbn in *; rewrite Hlog; by rewrite <- app_assoc.
  - intros e o Hpost Hexc Hlog. rewrite Hpost. cbn. rewrite Hexc.
    destruct truthy; cbn in *; rewrite Hlog; by rewrite <- app_assoc.
Qed.

(** X8. An error of the request that is not a [RequestException] is not
    caught: [send_notification] raises it, after the one request, and
    logs nothing. *)
Theorem send_notification_other_error_escapes
    (self : TelegramNotifier W) (msg_title msg : str) (v v1 : W)
    (wr : list wire_event) (e : exn) :
  post (request_url self) (request_data self msg_title msg) v = (Raise e, v1) →
  is_RequestException e = false →
  send_notification (wired_runtime rt) (wired_notifier self) msg_title msg
    {| under := v; wire := wr |}
  = (Raise e,
     {| under := v1;
        wire := wr ++ [Posted (request_url self)
                              (request_data self msg_title msg)] |}).
Proof.
  intros Hpost Hexc. destruct self as [token chat [truthy log]].
  unfold_notifier. cbn in *. unfold wired. cbn. rewrite Hpost. cbn. by rewrite Hexc.
Qed.

(** When the network only fails with [RequestException]s and the
    logging calls return, [send_notification] returns. *)
Lemma send_notification_returns (self : TelegramNotifier W) (msg_title msg : str) :
  HTTPError_is_RequestException →
  (∀ url data v, ∃ v1,
     (∃ r, post url data v = (Ok r, v1))
     ∨ (∃ e, post url data v = (Raise e, v1) ∧ is_RequestException e = true)) →
  (∀ level m, returns (log (logger self) level m)) →
  (∀ m, returns (print rt m)) →
  returns (send_notification rt self msg_title msg).
Proof.
  intros Hhttp Hnet Hlog Hprint v.
  assert (Hcall : ∀ level m v1, ∃ v2, handle_logging rt self level m v1 = (Ok tt, v2)).
  { intros level m v1. unfold handle_logging. destruct (truthy (logger self)).
    - destruct (Hlog level m v1) as ([] & v2 & ->). eauto.
    - destruct (Hprint m v1) as ([] & v2 & ->). eauto. }
  unfold send_notification, try_except, bind, of_outcome.
  match goal with |- context [post ?u ?d v] =>
    destruct (Hnet u d v) as [v1 [[r ->] | (e & -> & Hexc)]] end.
  - destruct (raise_for_status r) as [[]|e] eqn:Hstatus.
    + destruct (Hcall INFO "Telegram notification has been sent successfully" v1)
        as [v2 ->]. eauto.
    + rewrite (Hhttp _ _ Hstatus).
      destruct (Hcall ERROR ("Failed to send Telegram notification: " +:+ exc_msg e) v1)
        as [v2 ->]. eauto.
  - rewrite Hexc.
    destruct (Hcall ERROR ("Failed to send Telegram notification: " +:+ exc_msg e) v1)
      as [v2 ->]. eauto.
Qed.

End Delivery.
(** *** The theorems above on the scripted network *)

Lemma scripted_HTTPError_is_RequestException :
  HTTPError_is_RequestException (Q := scripted_requests).
Proof.
  intros code e. cbn. unfold status_check.
  destruct (_ && _); [|done]. by intros [= <-].
Qed.

Lemma send_notification_best_effort_witness :
  send_notification (wired_runtime still_runtime) (wired_notifier the_notifier)
    "Power outage!" "Battery Percentage: 15%" {| under := [Ok 200]; wire := [] |}
  = (Ok tt,
     {| under := [];
        wire := [Posted "https://api.telegram.org/bot123:abc/sendMessage"
                   (request_data (W := list (outcome Z)) the_notifier
                      "Power outage!" "Battery Percentage: 15%");
                 Logged INFO "Telegram notification has been sent successfully"] |})
  ∧ send_notification (wired_runtime still_runtime) (wired_notifier the_notifier)
      "Power outage!" "Battery Percentage: 15%" {| under := [Ok 500]; wire := [] |}
    = (Ok tt,
       {| under := [];
          wire := [Posted "https://api.telegram.org/bot123:abc/sendMessage"
                     (request_data (W := list (outcome Z)) the_notifier
                        "Power outage!" "Battery Percentage: 15%");
                   Logged ERROR "Failed to send Telegram notification: 500 Error"] |}).
Proof.
  split.
  - apply (proj1 (send_notification_best_effort (Q := scripted_requests)
                    still_runtime the_notifier "Power outage!"
                    "Battery Percentage: 15%" [Ok 200] [] [] []
                    scripted_HTTPError_is_RequestException) 200);
      reflexivity.
  - apply (proj1 (proj2 (send_notification_best_effort (Q := scripted_requests)
                    still_runtime the_notifier "Power outage!"
                    "Battery Percentage: 15%" [Ok 500] [] [] []
                    scripted_HTTPError_is_RequestException))
             500 (http_error 500) (Ok tt));
      reflexivity.
Defined.

Lemma send_notification_other_error_escapes_witness :
  send_notification (wired_runtime still_runtime) (wired_notifier the_notifier)
    "Power outage!" "Battery Percentage: 15%"
    {| under := [Raise (Exn TypeError "not serializable")]; wire := [] |}
  = (Raise (Exn TypeError "not serializable"),
     {| under := [];
        wire := [Posted "https://api.telegram.org/bot123:abc/sendMessage"
                   (request_data (W := list (outcome Z)) the_notifier
                      "Power outage!" "Battery Percentage: 15%")] |}).
Proof.
  apply (send_notification_other_error_escapes (Q := scripted_requests)
           still_runtime the_notifier "Power outage!" "Battery Percentage: 15%"
           [Raise (Exn TypeError "not serializable")] [] []
           (Exn TypeError "not serializable"));
    reflexivity.
Defined.

End TelegramFacts.

(* ===================================================================== *)
(** ** Further properties of the monitor loop *)
(* ===================================================================== *)

Module MonitorMore.
Import Monitor Trace System MonitorFacts Devices.

Ltac unfold_monitor :=
  unfold monitor_ups, try_except_KeyboardInterrupt,
    poll_cycle, handle_power_outage, handle_power_restoration,
    send_ups_status_notification, handle_logging, with_self, on_world,
    set_last_ups_on_battery_status, set_last_ups_low_battery_status,
    observe, observed, with_status, logged, traced_client, traced_notifier,
    traced_logger, traced_runtime, bind, ret, zoom, traced, traced_reading in *.

Ltac open_monitor mon rt :=
  destruct mon as [client prior last_low notifier [truthy log]];
  destruct rt as [print sleep];
  unfold_monitor; cbn.

Ltac pick_block :=
  unfold block; cbn;
  first [ by left | by right; left | by right; right; left | by right; right; right ].

Section Runs.
Context {V : Type} (rt : Runtime V).

(** Whatever its outcome, a poll cycle changes the monitor in its two
    status fields only, and sends one block of notifications. *)
Lemma poll_cycle_any (mon : UPSMonitor V) (v : V) (tr : list event) :
  ∃ (on low : bool) (v' : V) (new : list event),
    (poll_cycle (traced_runtime rt) (observe mon v tr)).2
    = observe (with_status mon on low) v' (tr ++ new)
    ∧ block (sent_titles new).
Proof.
  open_monitor mon rt. run_calls.
  all: eexists _, _, _, _; split; [rewrite <- ?app_assoc; reflexivity|].
  all: pick_block.
Qed.

Lemma poll_loop_any (n : nat) (mon : UPSMonitor V) (v : V) (tr : list event) :
  ∃ (on low : bool) (v' : V) (new : list event) (bs : list (list string)),
    (poll_loop (traced_runtime rt) n (observe mon v tr)).2
    = observe (with_status mon on low) v' (tr ++ new)
    ∧ (length bs ≤ n)%nat
    ∧ Forall block bs
    ∧ sent_titles new = concat bs.
Proof.
  revert mon v tr. induction n as [|n IH]; intros mon v tr.
  - exists (last_ups_on_battery_status mon), (last_ups_low_battery_status mon),
      v, [], [].
    rewrite app_nil_r. by destruct mon.
  - cbn [poll_loop]. unfold bind at 1.
    destruct (poll_cycle_any mon v tr) as (on & low & v1 & new1 & Hst & Hb1).
    destruct (poll_cycle _ _) as [[[]|e] st1]; cbn [snd] in Hst; subst st1.
    + destruct (IH (with_status mon on low) v1 (tr ++ new1)%list)
        as (on' & low' & v2 & new2 & bs & Hst & Hlen & Hbs & Htitles).
      exists on', low', v2, (new1 ++ new2)%list, (sent_titles new1 :: bs).
      rewrite Hst, app_assoc. split; [done|].
      split; [cbn; lia|]. split; [by constructor|].
      unfold sent_titles in *. by rewrite omap_app, Htitles.
    + exists on, low, v1, new1, [sent_titles new1].
      split; [done|]. split; [cbn; lia|].
      split; [by apply Forall_cons|]. cbn. by rewrite app_nil_r.
Qed.

(** X9. Whatever happens during a run of [monitor_ups] (cycles that
    complete, a collaborator that raises, an interrupt from the keyboard),
    the notifications it sends are, cycle by cycle, nothing, the outage
    notice, the outage notice followed by the low battery notice, or the
    restoration notice.  So a low battery notice never comes without the
    outage notice just before it, and a cycle sends at most two
    notifications. *)
Theorem monitor_ups_sends_blocks (n : nat) (mon : UPSMonitor V) (v : V)
    (tr : list event) :
  ∃ (new : list event) (bs : list (list string)),
    trace (world (monitor_ups (traced_runtime rt) n (observe mon v tr)).2)
    = (tr ++ new)%list
    ∧ (length bs ≤ n)%nat
    ∧ Forall block bs
    ∧ sent_titles new = concat bs.
Proof.
  destruct (poll_loop_any n mon v tr)
    as (on & low & v1 & new & bs & Hst & Hlen & Hbs & Htitles).
  unfold monitor_ups, try_except_KeyboardInterrupt.
  destruct (poll_loop _ _ _) as [[[]|e] st1]; cbn [snd] in Hst; subst st1.
  - by exists new, bs.
  - destruct (is_KeyboardInterrupt e); [|by exists new, bs].
    destruct mon as [client prior last_low' notifier [truthy log]].
    destruct rt as [print sleep]. unfold_monitor. cbn.
    destruct truthy; cbn.
    + destruct (log _ _ _) as [r v2]. cbn.
      exists (new ++ [CallLog INFO "Script terminated by user."])%list, bs.
      rewrite app_assoc. unfold sent_titles in *.
      rewrite omap_app, Htitles. cbn. by rewrite app_nil_r.
    + destruct (print _ _) as [r v2]. cbn.
      exists (new ++ [CallPrint "Script terminated by user."])%list, bs.
      rewrite app_assoc. unfold sent_titles in *.
      rewrite omap_app, Htitles. cbn. by rewrite app_nil_r.
Qed.

(** X10. An interrupt from the keyboard during [time.sleep] ends
    [monitor_ups] normally.  With collaborators that return, the cycle it
    interrupts has taken its reading, sent the notification of its
    transition and stored the reading before the interrupt; the last thing
    the monitor does is to log "Script terminated by user.", and no
    further cycle runs. *)
Theorem interrupt_during_sleep (n : nat) (mon : UPSMonitor V) (v : V)
    (tr : list event) :
  all_return_but_sleep rt mon →
  (∀ v0, ∃ e v1, sleep rt 2 v0 = (Raise e, v1) ∧ is_KeyboardInterrupt e = true) →
  ∃ (cur : bool) (v1 : V) (st' : State (Traced V)) (new : list event),
    is_ups_on_battery (nut_client mon) v = (Ok cur, v1)
    ∧ monitor_ups (traced_runtime rt) (S n) (observe mon v tr) = (Ok tt, st')
    ∧ trace (world st') = (tr ++ new)%list
    ∧ readings new = [cur]
    ∧ last_ups_on_battery_status (self st') = cur
    ∧ notified "Power outage!" new
      = (if negb (last_ups_on_battery_status mon) && cur then 1 else 0)%nat
    ∧ notified "Power restoration!" new
      = (if last_ups_on_battery_status mon && negb cur then 1 else 0)%nat
    ∧ last new = Some (logged mon INFO "Script terminated by user.").
Proof.
  intros (Hob & Hlow & Hcharge & Hstatus & Hpower & Hsend & Hlog & Hprint) Hsleep.
  unfold monitor_ups. cbn [poll_loop]. open_monitor mon rt. cbn in *.
  repeat first
    [ match goal with
      | |- context [match sleep 2 ?v0 with pair _ _ => _ end] =>
          destruct (Hsleep v0) as (? & ? & -> & ->)
      | |- context [match ?m ?v0 with pair _ _ => _ end] =>
          lazymatch m with
          | context [match _ with _ => _ end] => fail
          | _ =>
              let Hr := fresh in
              assert (Hr : ∃ a v', m v0 = (Ok a, v'))
                by first [ apply Hob | apply Hlow | apply Hcharge | apply Hstatus
                         | apply Hpower | apply Hsend | apply Hlog | apply Hprint ];
              destruct Hr as (? & ? & ->)
          end
      end; cbn
    | next_test; cbn ].
  all: match goal with
       | |- ∃ _ _ _ _, (Ok ?c, _) = _ ∧ (Ok ?a, _) = _ ∧ _ => destruct a
       end.
  all: eexists _, _, _, _; split; [reflexivity|]; split; [reflexivity|].
  all: cbn; rewrite <- ?app_assoc; split; [reflexivity|].
  all: by vm_compute.
Qed.

(** A poll cycle on a client that gives the same answers from every
    world: what it sends and what it stores. *)
Lemma constant_answers_cycle (mon : UPSMonitor V) (v : V) (tr : list event)
    (on_battery low_strict low_report : bool) (charge power : Z) (status : string) :
  (∀ w, ∃ w', is_ups_on_battery (nut_client mon) w = (Ok on_battery, w')) →
  (∀ w, ∃ w', is_ups_battery_low (nut_client mon) None w = (Ok low_strict, w')) →
  (∀ w, ∃ w', is_ups_battery_low (nut_client mon) (Some true) w
              = (Ok low_report, w')) →
  (∀ w, ∃ w', get_battery_charge_percentage (nut_client mon) w = (Ok charge, w')) →
  (∀ w, ∃ w', get_ups_status (nut_client mon) w = (Ok status, w')) →
  (∀ w, ∃ w', get_current_power_draw (nut_client mon) w = (Ok power, w')) →
  (∀ title msg, returns (send_notification (telegram_notifier mon) title msg)) →
  (∀ level msg, returns (log (logger mon) level msg)) →
  (∀ msg, returns (print rt msg)) →
  (∀ secs, returns (sleep rt secs)) →
  let prior := last_ups_on_battery_status mon in
  let announce_low := low_strict && negb (last_ups_low_battery_status mon) in
  ∃ (st' : State (Traced V)) (new : list event),
    poll_cycle (traced_runtime rt) (observe mon v tr) = (Ok tt, st')
    ∧ trace (world st') = (tr ++ new)%list
    ∧ sent_titles new
      = (if negb prior && on_battery
         then status_title "Power outage!"
              :: (if announce_low then [status_title "Low battery!"] else [])
         else if prior && negb on_battery
         then [status_title "Power restoration!"]
         else [])
    ∧ sent_bodies new
      = map (λ _, status_msg charge status low_report power) (sent_titles new)
    ∧ last_ups_on_battery_status (self st') = on_battery
    ∧ last_ups_low_battery_status (self st')
      = (if negb prior && on_battery then low_strict
         else last_ups_low_battery_status mon).
Proof.
  intros Hob Hlows Hlowr Hcharge Hstatus Hpower Hsend Hlog Hprint Hsleep.
  open_monitor mon rt. cbn in *.
  repeat first
    [ match goal with
      | |- context [match ?m ?v0 with pair _ _ => _ end] =>
          lazymatch m with
          | context [match _ with _ => _ end] => fail
          | _ =>
              first
                [ let Hr := fresh in
                  assert (Hr : ∃ a v', m v0 = (Ok a, v'))
                    by first [ apply Hsend | apply Hlog | apply Hprint
                             | apply Hsleep ];
                  destruct Hr as (? & ? & ->)
                | let Heq := fresh in
                  first [ destruct (Hob v0) as [? Heq]; rewrite Heq
                        | destruct (Hlows v0) as [? Heq]; rewrite Heq
                        | destruct (Hlowr v0) as [? Heq]; rewrite Heq
                        | destruct (Hcharge v0) as [? Heq]; rewrite Heq
                        | destruct (Hstatus v0) as [? Heq]; rewrite Heq
                        | destruct (Hpower v0) as [? Heq]; rewrite Heq ];
                  clear Heq ]
          end
      end; cbn
    | next_test; cbn ].
  all: match goal with |- ∃ _ _, (Ok ?a, _) = _ ∧ _ => destruct a end.
  all: eexists _, _; split; [reflexivity|].
  all: cbn; rewrite <- ?app_assoc; split; [reflexivity|].
  all: by vm_compute.
Qed.

(** A cycle that runs to its end: the state it leaves and the notices
    it sent, in terms of the one reading it took. *)
Lemma completed_cycle_summary
    (mon : UPSMonitor V) (v : V) (tr : list event) (st' : State (Traced V)) :
  poll_cycle (traced_runtime rt) (observe mon v tr) = (Ok tt, st') →
  ∃ (cur low : bool) (v' : V) (new : list event),
    st' = observe (with_status mon cur low) v' (tr ++ new)
    ∧ readings new = [cur]
    ∧ notified "Power outage!" new
      = (if negb (last_ups_on_battery_status mon) && cur then 1 else 0)%nat
    ∧ notified "Power restoration!" new
      = (if last_ups_on_battery_status mon && negb cur then 1 else 0)%nat.
Proof.
  open_monitor mon rt. run_calls.
  all: intros Hend; simplify_eq; cbn.
  all: eexists _, _, _, _; split; [rewrite <- ?app_assoc; reflexivity|].
  all: repeat split; by vm_compute.
Qed.

(** X14. A monitor starts with both flags clear and logs "Monitor
    started" once.  So when it is started while the UPS is already on
    battery, its first poll cycle that runs to its end announces the
    outage. *)
Theorem started_during_outage
    (getLogger : Logger V) (client : NutClient V) (notifier : TelegramNotifier V)
    (logger : Logger V) (v : V) (tr : list event)
    (mon' : UPSMonitor (Traced V)) (t' : Traced V) :
  __init__ (traced_runtime rt) (traced_logger getLogger) (traced_client client)
    (traced_notifier notifier) (traced_logger logger)
    {| inner := v; trace := tr |} = (Ok mon', t') →
  ∃ (mon : UPSMonitor V) (v0 : V),
    mon' = observed mon
    ∧ nut_client mon = client
    ∧ last_ups_on_battery_status mon = false
    ∧ last_ups_low_battery_status mon = false
    ∧ t' = {| inner := v0; trace := tr ++ [logged mon INFO "Monitor started"] |}
    ∧ ∀ (st' : State (Traced V)) (v1 : V),
        poll_cycle (traced_runtime rt) {| self := mon'; world := t' |} = (Ok tt, st') →
        is_ups_on_battery client v0 = (Ok true, v1) →
        ∃ new : list event,
          trace (world st') = (trace t' ++ new)%list
          ∧ notified "Power outage!" new = 1%nat.
Proof.
  intros Hinit.
  set (mon := {| nut_client := client;
                 last_ups_on_battery_status := false;
                 last_ups_low_battery_status := false;
                 telegram_notifier := notifier;
                 logger := if truthy logger then logger else getLogger |}).
  assert (Hmon : mon' = observed mon
                 ∧ ∃ v0, t' = {| inner := v0;
                                 trace := tr ++ [logged mon INFO "Monitor started"] |}).
  { revert Hinit. subst mon. destruct rt as [print sleep].
    unfold __init__, handle_logging, with_self, on_world, zoom, observed, logged,
      traced_logger, traced_runtime, traced. cbn.
    destruct (truthy logger) eqn:Hl; cbn; rewrite ?Hl; cbn.
    - destruct (log logger _ _ _) as [[[]|e] v0]; intros [= <- <-]; eauto.
    - destruct (truthy getLogger) eqn:Hg; cbn; rewrite ?Hg; cbn.
      + destruct (log getLogger _ _ _) as [[[]|e] v0]; intros [= <- <-]; eauto.
      + destruct (print _ _) as [[[]|e] v0]; intros [= <- <-]; eauto. }
  destruct Hmon as [-> [v0 ->]]. exists mon, v0. repeat split.
  intros st' v1 Hcycle Hread.
  destruct (completed_cycle_notifies rt mon v0 _ st' Hcycle)
    as (cur & v2 & new & Hread' & Htr & Hout & _).
  cbn in Hread'. rewrite Hread in Hread'. injection Hread' as <- <-.
  exists new. split; [exact Htr | exact Hout].
Qed.

(** A cycle whose collaborators return has taken its reading and sent
    the notice of its transition when [time.sleep] is reached, whatever
    [time.sleep] then does. *)
Lemma cycle_up_to_sleep (mon : UPSMonitor V) (v : V) (tr : list event) :
  all_return_but_sleep rt mon →
  ∃ (cur low : bool) (v' : V) (new : list event) (r : outcome unit),
    poll_cycle (traced_runtime rt) (observe mon v tr)
    = (r, observe (with_status mon cur low) v' (tr ++ new))
    ∧ readings new = [cur]
    ∧ filter (λ t, t ≠ status_title "Low battery!") (sent_titles new)
      = map status_title (Spec.transitions (last_ups_on_battery_status mon) [cur]).
Proof.
  intros (Hob & Hlow & Hcharge & Hstatus & Hpower & Hsend & Hlog & Hprint).
  open_monitor mon rt. cbn in *.
  repeat first
    [ match goal with
      | |- context [match sleep ?secs ?v0 with pair _ _ => _ end] =>
          destruct (sleep secs v0) as [[[]|?] ?]
      | |- context [match ?m ?v0 with pair _ _ => _ end] =>
          lazymatch m with
          | context [match _ with _ => _ end] => fail
          | _ =>
              let Hr := fresh in
              assert (Hr : ∃ a v', m v0 = (Ok a, v'))
                by first [ apply Hob | apply Hlow | apply Hcharge | apply Hstatus
                         | apply Hpower | apply Hsend | apply Hlog | apply Hprint ];
              destruct Hr as (? & ? & ->)
          end
      end; cbn
    | next_test; cbn ].
  all: eexists _, _, _, _, _; split; [rewrite <- ?app_assoc; reflexivity|].
  all: split; by vm_compute.
Qed.

Lemma all_return_but_sleep_with_status (mon : UPSMonitor V) (on low : bool) :
  all_return_but_sleep rt mon → all_return_but_sleep rt (with_status mon on low).
Proof. by destruct mon. Qed.

Lemma loop_up_to_sleep (n : nat) (mon : UPSMonitor V) (v : V) (tr : list event) :
  all_return_but_sleep rt mon →
  ∃ (cur low : bool) (v' : V) (new : list event) (r : outcome unit),
    poll_loop (traced_runtime rt) n (observe mon v tr)
    = (r, observe (with_status mon cur low) v' (tr ++ new))
    ∧ (length (readings new) ≤ n)%nat
    ∧ filter (λ t, t ≠ status_title "Low battery!") (sent_titles new)
      = map status_title
          (Spec.transitions (last_ups_on_battery_status mon) (readings new)).
Proof.
  revert mon v tr. induction n as [|n IH]; intros mon v tr Hall.
  - exists (last_ups_on_battery_status mon), (last_ups_low_battery_status mon),
      v, [], (Ok tt).
    rewrite app_nil_r. by destruct mon.
  - cbn [poll_loop]. unfold bind at 1.
    destruct (cycle_up_to_sleep mon v tr Hall)
      as (cur & low & v1 & new1 & r & -> & Hread1 & Hsent1).
    destruct r as [[]|e].
    + destruct (IH (with_status mon cur low) v1 (tr ++ new1)%list
                  (all_return_but_sleep_with_status _ _ _ Hall))
        as (cur' & low' & v2 & new2 & r & -> & Hlen & Hsent2).
      exists cur', low', v2, (new1 ++ new2)%list, r.
      split; [rewrite app_assoc; by destruct mon|].
      unfold readings, sent_titles in *. rewrite !omap_app, Hread1.
      split; [cbn; lia|].
      rewrite filter_app, Hsent1, Hsent2. cbn [app Spec.transitions].
      rewrite app_nil_r, map_app. by destruct mon.
    + exists cur, low, v1, new1, (Raise e). split; [done|].
      rewrite Hread1. split; [cbn; lia | exact Hsent1].
Qed.

(** X16. A run of [monitor_ups] whose collaborators return, whatever
    [time.sleep] does (return, or raise, as on an interrupt from the
    keyboard, after any number of cycles): the outage and restoration
    notices it has sent are those of the changes in the sequence of
    readings it has taken, one per change in order, none for a repeated
    reading; the first reading is compared with the stored flag. *)
Theorem monitor_ups_notices_follow_readings
    (n : nat) (mon : UPSMonitor V) (v : V) (tr : list event) :
  all_return_but_sleep rt mon →
  ∃ new : list event,
    trace (world (monitor_ups (traced_runtime rt) n (observe mon v tr)).2)
    = (tr ++ new)%list
    ∧ (length (readings new) ≤ n)%nat
    ∧ filter (λ t, t ≠ status_title "Low battery!") (sent_titles new)
      = map status_title
          (Spec.transitions (last_ups_on_battery_status mon) (readings new)).
Proof.
  intros Hall.
  destruct (loop_up_to_sleep n mon v tr Hall)
    as (cur & low & v1 & new & r & Hloop & Hlen & Hsent).
  unfold monitor_ups, try_except_KeyboardInterrupt. rewrite Hloop.
  destruct r as [[]|e]; [by exists new|].
  destruct (is_KeyboardInterrupt e); [|by exists new].
  destruct mon as [client prior last_low' notifier [truthy log]].
  destruct rt as [print sleep]. unfold_monitor. cbn.
  destruct truthy; cbn.
  - destruct (log _ _ _) as [r v2]. cbn.
    exists (new ++ [CallLog INFO "Script terminated by user."])%list.
    rewrite app_assoc. split; [done|].
    unfold readings, sent_titles in *. rewrite !omap_app. cbn.
    by rewrite !app_nil_r.
  - destruct (print _ _) as [r v2]. cbn.
    exists (new ++ [CallPrint "Script terminated by user."])%list.
    rewrite app_assoc. split; [done|].
    unfold readings, sent_titles in *. rewrite !omap_app. cbn.
    by rewrite !app_nil_r.
Qed.

End Runs.

Section OnDevice.
Context {B : Builtins} {E : Type} {P : NUT.PyNUT E}.
Context (rt : Runtime (NUT.World E)).

(** X11. A listing that is not empty and has no [ups.status] ends the
    monitor: [is_ups_on_battery] raises [TypeError] at the reading, the
    cycle sends nothing and changes nothing, and [monitor_ups] raises the
    error to its caller without logging the termination. *)
Theorem listing_without_status_stops_monitor
    (c : NUT.NUTClient) (mon : UPSMonitor (NUT.World E)) (n : nat)
    (w w1 : NUT.World E) (vars : gmap string string) (tr : list event) :
  nut_client mon = nut_client_of c →
  NUT.get_ups_vars c w = (Ok vars, w1) →
  vars ≠ ∅ →
  vars !! "ups.status" = None →
  ∃ e : exn,
    exc_type e = TypeError
    ∧ monitor_ups (traced_runtime rt) (S n) (observe mon w tr)
      = (Raise e, observe mon w1 (tr ++ [CallIsOnBattery])).
Proof.
  intros Hclient Hv Hne Hno.
  pose proof (NUTFacts.is_ups_on_battery_of_vars _ _ _ _ Hv) as Hob.
  rewrite Hno, (NUTFacts.dict_truthy_nonempty _ Hne) in Hob.
  eexists. split; [|unfold monitor_ups; cbn [poll_loop]].
  2: { destruct mon as [client prior last_low notifier [truthy log]].
       cbn in Hclient. subst client. destruct rt as [print sleep].
       unfold_monitor. cbn. rewrite Hob. reflexivity. }
  reflexivity.
Qed.

(** X12. While the server is out of reach, a monitor that was on battery
    reads "not on battery" and announces a power restoration.  The notice
    reports the defaults: charge 0%, status "Unknown status", low battery
    "Yes" (0 <= 0), power 0. *)
Theorem unreachable_server_announces_restoration
    (c : NUT.NUTClient) (mon : UPSMonitor (NUT.World E))
    (w : NUT.World E) (tr : list event) :
  nut_client mon = nut_client_of c →
  last_ups_on_battery_status mon = true →
  (∀ s, ∃ e s', NUT.GetUPSVars (NUT.client c) (NUT.ups_name c) s = (Raise e, s')
                ∧ is_Exception e = true) →
  (∀ s, ∃ e s', NUT.GetRWVars (NUT.client c) (NUT.ups_name c) s = (Raise e, s')
                ∧ is_Exception e = true) →
  int "0" = Ok 0 →
  (∀ title msg, returns (send_notification (telegram_notifier mon) title msg)) →
  (∀ level msg, returns (log (logger mon) level msg)) →
  (∀ msg, returns (print rt msg)) →
  (∀ secs, returns (sleep rt secs)) →
  ∃ (st' : State (Traced (NUT.World E))) (new : list event),
    poll_cycle (traced_runtime rt) (observe mon w tr) = (Ok tt, st')
    ∧ trace (world st') = (tr ++ new)%list
    ∧ sent_titles new = [status_title "Power restoration!"]
    ∧ sent_bodies new = [status_msg 0 "Unknown status" true 0]
    ∧ last_ups_on_battery_status (self st') = false.
Proof.
  intros Hclient Hprior Hvars Hrw Hint Hsend Hlog Hprint Hsleep.
  pose proof (NUTMore.unreachable_queries c Hvars Hrw) as Hq.
  destruct (constant_answers_cycle rt mon w tr false false true 0 0 "Unknown status")
    as (st' & new & Hrun & Htr & Htitles & Hbodies & Hon & _); try done.
  all: try (rewrite Hclient; intros w0; cbn; apply (Hq w0)).
  - rewrite Hclient. intros w0. cbn. rewrite <- Hint. apply (Hq w0).
  - exists st', new. rewrite Hprior in Htitles. cbn in Htitles.
    rewrite Htitles in Hbodies. done.
Qed.

(** X13. On a server that always hands out the same two listings, with
    [ups.status], integer charge, threshold and power, one poll cycle of a
    monitor whose collaborators return sends: on a change to on-battery
    the outage notice, then the low battery notice when the charge is at
    most the threshold and the low battery flag is clear; on a change back
    the restoration notice; otherwise nothing.  Every notice reports the
    charge, the description of the status, whether the charge is at most
    the threshold, and the power.  The reading is stored, and on a change
    to on-battery so is whether the charge is at most the threshold. *)
Theorem steady_device_cycle
    (c : NUT.NUTClient) (mon : UPSMonitor (NUT.World E))
    (w : NUT.World E) (tr : list event)
    (items rw_items : NUT.byte_dict) (vars rw_vars : gmap string string)
    (status : string) (charge low power : Z) :
  nut_client mon = nut_client_of c →
  (∀ s, NUT.GetUPSVars (NUT.client c) (NUT.ups_name c) s = (Ok items, s)) →
  (∀ s, NUT.GetRWVars (NUT.client c) (NUT.ups_name c) s = (Ok rw_items, s)) →
  NUT.__decode_byte_dict items = Ok vars →
  NUT.__decode_byte_dict rw_items = Ok rw_vars →
  vars !! "ups.status" = Some status →
  NUT.int_of_get (vars !! "battery.charge") = Ok charge →
  NUT.int_of_get (rw_vars !! "battery.charge.low") = Ok low →
  int (default "0" (vars !! "ups.realpower")) = Ok power →
  (∀ title msg, returns (send_notification (telegram_notifier mon) title msg)) →
  (∀ level msg, returns (log (logger mon) level msg)) →
  (∀ msg, returns (print rt msg)) →
  (∀ secs, returns (sleep rt secs)) →
  let prior := last_ups_on_battery_status mon in
  let on_battery := str_in "OB" status in
  let is_low := charge <=? low in
  ∃ (st' : State (Traced (NUT.World E))) (new : list event),
    poll_cycle (traced_runtime rt) (observe mon w tr) = (Ok tt, st')
    ∧ trace (world st') = (tr ++ new)%list
    ∧ sent_titles new
      = (if negb prior && on_battery
         then status_title "Power outage!"
              :: (if is_low && negb (last_ups_low_battery_status mon)
                  then [status_title "Low battery!"] else [])
         else if prior && negb on_battery
         then [status_title "Power restoration!"]
         else [])
    ∧ sent_bodies new
      = map (λ _, status_msg charge (Spec.status_description vars) is_low power)
            (sent_titles new)
    ∧ last_ups_on_battery_status (self st') = on_battery
    ∧ last_ups_low_battery_status (self st')
      = (if negb prior && on_battery then is_low
         else last_ups_low_battery_status mon).
Proof.
  intros Hclient Hv Hrw Hdv Hdrw Hstatus Hcharge Hlow Hpower
    Hsend Hlog Hprint Hsleep prior on_battery is_low.
  assert (Hq : ∀ w0 : NUT.World E,
            NUT.get_battery_charge_percentage c w0 = (Ok charge, w0)
            ∧ NUT.get_current_power_draw c w0 = (Ok power, w0)
            ∧ NUT.get_ups_status c w0 = (Ok (Spec.status_description vars), w0)
            ∧ NUT.is_ups_on_battery c w0 = (Ok on_battery, w0)
            ∧ ∀ ignore_ob, NUT.is_ups_battery_low c ignore_ob w0
                           = (Ok ((on_battery || ignore_ob) && is_low), w0)).
  { intros w0.
    pose proof (NUTMore.steady_get_ups_vars c w0 _ _ (Hv _) Hdv) as Hvars.
    split; [by rewrite (NUTMore.charge_of_vars _ _ _ _ Hvars), Hcharge|].
    split; [unfold NUT.get_current_power_draw, bind, dict_get;
            by rewrite Hvars, Hpower|].
    split; [by apply NUTFacts.get_ups_status_of_vars|].
    split; [|intros ignore_ob];
      by eapply NUTMore.steady_is_ups_battery_low. }
  destruct (constant_answers_cycle rt mon w tr on_battery (on_battery && is_low)
              is_low charge power (Spec.status_description vars))
    as (st' & new & Hrun & Htr & Htitles & Hbodies & Hon & Hflag); try done.
  all: try (rewrite Hclient; intros w0; exists w0; cbn; apply (Hq w0)).
  - rewrite Hclient. intros w0. exists w0. cbn.
    rewrite (proj2 (proj2 (proj2 (proj2 (Hq w0)))) false).
    by rewrite orb_false_r.
  - rewrite Hclient. intros w0. exists w0. cbn.
    rewrite (proj2 (proj2 (proj2 (proj2 (Hq w0)))) true).
    by rewrite orb_true_r.
  - exists st', new. fold prior in Htitles, Hflag.
    repeat split; try done.
    + rewrite Htitles. by destruct prior, on_battery.
    + rewrite Hflag. by destruct prior, on_battery.
Qed.

End OnDevice.

Section Wired.
Context {V R : Type} {Q : Telegram.Requests V R} (rt : Runtime V).

(** X15. A monitor that notifies through a [TelegramNotifier]: when the
    network answers or fails with a [RequestException], and the other
    collaborators return, every poll cycle runs to its end and stores its
    reading, whether or not the notification was delivered.  A
    notification that failed is counted as sent: the next cycle sees no
    transition and does not send it again. *)
Theorem failed_delivery_does_not_stop_monitor
    (tn : Telegram.TelegramNotifier V) (mon : UPSMonitor V) (v : V)
    (tr : list event) :
  telegram_notifier mon = Telegram.notifier_of rt tn →
  Telegram.HTTPError_is_RequestException →
  (∀ url data v0, ∃ v1,
     (∃ r, Telegram.post url data v0 = (Ok r, v1))
     ∨ (∃ e, Telegram.post url data v0 = (Raise e, v1)
             ∧ Telegram.is_RequestException e = true)) →
  (∀ level m, returns (log (Telegram.logger tn) level m)) →
  returns (is_ups_on_battery (nut_client mon)) →
  (∀ arg, returns (is_ups_battery_low (nut_client mon) arg)) →
  returns (get_battery_charge_percentage (nut_client mon)) →
  returns (get_ups_status (nut_client mon)) →
  returns (get_current_power_draw (nut_client mon)) →
  (∀ level msg, returns (log (logger mon) level msg)) →
  (∀ msg, returns (print rt msg)) →
  (∀ secs, returns (sleep rt secs)) →
  ∃ (cur low : bool) (v' : V) (new : list event),
    poll_cycle (traced_runtime rt) (observe mon v tr)
    = (Ok tt, observe (with_status mon cur low) v' (tr ++ new))
    ∧ readings new = [cur]
    ∧ notified "Power outage!" new
      = (if negb (last_ups_on_battery_status mon) && cur then 1 else 0)%nat
    ∧ notified "Power restoration!" new
      = (if last_ups_on_battery_status mon && negb cur then 1 else 0)%nat
    ∧ ∀ (st2 : State (Traced V)) (v1 : V),
        poll_cycle (traced_runtime rt) (observe (with_status mon cur low) v' (tr ++ new))
        = (Ok tt, st2) →
        is_ups_on_battery (nut_client mon) v' = (Ok cur, v1) →
        sent_titles (trace (world st2)) = sent_titles (tr ++ new).
Proof.
  intros Hnotifier Hhttp Hnet Htnlog Hob Hlow Hcharge Hstatus Hpower Hlog Hprint Hsleep.
  assert (Hall : all_return rt mon).
  { repeat split; try done. rewrite Hnotifier. intros title msg. cbn.
    by apply TelegramFacts.send_notification_returns. }
  destruct (poll_cycle_completes rt mon v tr Hall) as [st' Hcycle].
  destruct (completed_cycle_summary rt mon v tr _ Hcycle)
    as (cur & low & v' & new & -> & Hread & Hout & Hback).
  exists cur, low, v', new. repeat split; try done.
  intros st2 v2 Hcycle2 Hread2.
  destruct (completed_cycle_notifies rt (with_status mon cur low) v' _ st2 Hcycle2)
    as (cur2 & v3 & new2 & Hreading2 & Htr2 & _ & _ & Hnone).
  assert (cur2 = cur) as ->.
  { destruct mon. cbn in *. congruence. }
  rewrite Htr2. unfold sent_titles in *. rewrite omap_app, Hnone.
  - by rewrite app_nil_r.
  - by destruct mon.
Qed.

End Wired.

(** *** The theorems above at concrete devices *)

Lemma silent_collaborators_return {V} (rt : Runtime V) (on_battery low : bool) :
  (∀ msg, returns (print rt msg)) →
  all_return_but_sleep rt (fixed_monitor on_battery low silent_notifier).
Proof.
  intros Hprint. repeat split; try done.
  all: intros; intros v; by eexists _, _.
Qed.

Lemma interrupt_during_sleep_witness :
  ∃ st' : State (Traced unit),
    monitor_ups (traced_runtime interrupted_runtime) 3
      (observe (fixed_monitor true true silent_notifier) tt []) = (Ok tt, st')
    ∧ notified "Power outage!" (trace (world st')) = 1%nat
    ∧ last (trace (world st'))
      = Some (CallLog INFO "Script terminated by user.").
Proof.
  assert (Hall : all_return_but_sleep (V := unit) interrupted_runtime
                   (fixed_monitor true true silent_notifier)).
  { apply silent_collaborators_return. intros msg v. by eexists _, _. }
  assert (Hsleep : ∀ v0 : unit, ∃ e v1,
             sleep interrupted_runtime 2 v0 = (Raise e, v1)
             ∧ is_KeyboardInterrupt e = true).
  { intros v0. by exists (Exn KeyboardInterrupt ""), v0. }
  destruct (interrupt_during_sleep interrupted_runtime 2
              (fixed_monitor true true silent_notifier) tt [] Hall Hsleep)
    as (cur & v1 & st' & new & Hread & Hrun & Htr & _ & _ & Hout & _ & Hlast).
  injection Hread as <- _.
  exists st'. rewrite Htr. split; [exact Hrun|].
  split; [exact Hout | exact Hlast].
Defined.

Lemma listing_without_status_stops_monitor_witness :
  ∃ e : exn,
    exc_type e = TypeError
    ∧ monitor_ups (traced_runtime scripted_runtime) 1
        (observe fresh_monitor (at_device without_status) [])
      = (Raise e, observe fresh_monitor (at_device without_status) [CallIsOnBattery]).
Proof.
  assert (Hv : NUT.get_ups_vars the_client (at_device without_status)
               = (Ok {[ "battery.charge" := "80" ]}, at_device without_status))
    by (vm_compute; reflexivity).
  assert (Hno : ({[ "battery.charge" := "80" ]} : gmap string string) !! "ups.status"
                = None) by (vm_compute; reflexivity).
  apply (listing_without_status_stops_monitor scripted_runtime the_client
           fresh_monitor 0 _ _ _ [] eq_refl Hv (map_non_empty_singleton _ _) Hno).
Defined.

Lemma unreachable_server_announces_restoration_witness :
  ∃ (st' : State (Traced (NUT.World unit))),
    poll_cycle (traced_runtime plain_runtime)
      (observe (monitor_on offline true false) blank []) = (Ok tt, st')
    ∧ sent_titles (trace (world st')) = [status_title "Power restoration!"]
    ∧ sent_bodies (trace (world st')) = [status_msg 0 "Unknown status" true 0].
Proof.
  assert (Hvars : ∀ s, ∃ e s',
             NUT.GetUPSVars (PyNUT := constant_server offline)
               (NUT.client the_client) (NUT.ups_name the_client) s = (Raise e, s')
             ∧ is_Exception e = true).
  { intros s. by exists (Exn (OtherException "PyNUTError") "Connection refused"), s. }
  assert (Hrw : ∀ s, ∃ e s',
             NUT.GetRWVars (PyNUT := constant_server offline)
               (NUT.client the_client) (NUT.ups_name the_client) s = (Raise e, s')
             ∧ is_Exception e = true).
  { intros s. by exists (Exn (OtherException "PyNUTError") "Connection refused"), s. }
  assert (Hint : int "0" = Ok 0) by reflexivity.
  destruct (unreachable_server_announces_restoration (P := constant_server offline)
              plain_runtime the_client (monitor_on offline true false) blank []
              eq_refl eq_refl Hvars Hrw Hint)
    as (st' & new & Hrun & Htr & Htitles & Hbodies & _).
  1-4: intros; intros v; by eexists _, _.
  exists st'. rewrite Htr. split; [exact Hrun|].
  split; [exact Htitles | exact Hbodies].
Defined.

Lemma steady_device_cycle_witness :
  ∃ (st' : State (Traced (NUT.World unit))),
    poll_cycle (traced_runtime plain_runtime)
      (observe (monitor_on low_outage false false) blank []) = (Ok tt, st')
    ∧ sent_titles (trace (world st'))
      = [status_title "Power outage!"; status_title "Low battery!"]
    ∧ sent_bodies (trace (world st'))
      = [status_msg 15 "On Battery" true 50; status_msg 15 "On Battery" true 50]
    ∧ last_ups_low_battery_status (self st') = true.
Proof.
  set (items := [("ups.status", "OB"); ("battery.charge", "15");
                 ("ups.realpower", "50")]).
  set (vars := <["ups.realpower" := "50"]>
                 (<["battery.charge" := "15"]>
                    ({[ "ups.status" := "OB" ]} : gmap string string))).
  assert (Hdv : NUT.__decode_byte_dict items = Ok vars) by reflexivity.
  assert (Hdrw : NUT.__decode_byte_dict [("battery.charge.low", "20")]
                 = Ok {[ "battery.charge.low" := "20" ]}) by reflexivity.
  assert (Hstatus : vars !! "ups.status" = Some "OB") by reflexivity.
  assert (Hcharge : NUT.int_of_get (vars !! "battery.charge") = Ok 15) by reflexivity.
  assert (Hlow : NUT.int_of_get
                   (({[ "battery.charge.low" := "20" ]} : gmap string string)
                      !! "battery.charge.low") = Ok 20) by reflexivity.
  assert (Hpower : int (default "0" (vars !! "ups.realpower")) = Ok 50) by reflexivity.
  destruct (steady_device_cycle (P := constant_server low_outage)
              plain_runtime the_client (monitor_on low_outage false false) blank []
              items [("battery.charge.low", "20")] vars _ "OB" 15 20 50
              eq_refl (λ _, eq_refl) (λ _, eq_refl) Hdv Hdrw Hstatus Hcharge Hlow Hpower)
    as (st' & new & Hrun & Htr & Htitles & Hbodies & _ & Hflag).
  1-4: intros; intros v; by eexists _, _.
  exists st'. rewrite Htr. split; [exact Hrun|].
  split; [exact Htitles|]. split; [|exact Hflag].
  cbn [app]. rewrite Hbodies, Htitles. vm_compute. reflexivity.
Defined.

Lemma started_during_outage_witness :
  let mon := fixed_monitor (V := unit) true true silent_notifier in
  let started := {| inner := tt; trace := [CallLog INFO "Monitor started"] |} in
  __init__ (traced_runtime Telegram.still_runtime) (traced_logger silent_logger)
    (traced_client (fixed_client true true 15 50 "On Battery"))
    (traced_notifier silent_notifier) (traced_logger silent_logger)
    {| inner := tt; trace := [] |} = (Ok (observed mon), started)
  ∧ ∃ st' new,
      poll_cycle (traced_runtime Telegram.still_runtime)
        {| self := observed mon; world := started |} = (Ok tt, st')
      ∧ trace (world st') = (trace started ++ new)%list
      ∧ notified "Power outage!" new = 1%nat.
Proof.
  intros mon started.
  assert (Hinit : __init__ (traced_runtime Telegram.still_runtime)
                    (traced_logger silent_logger)
                    (traced_client (fixed_client true true 15 50 "On Battery"))
                    (traced_notifier silent_notifier) (traced_logger silent_logger)
                    {| inner := tt; trace := [] |} = (Ok (observed mon), started))
    by reflexivity.
  split; [exact Hinit|].
  destruct (started_during_outage Telegram.still_runtime _ _ _ _ _ _ _ _ Hinit)
    as (mon0 & v0 & _ & _ & _ & _ & _ & Hfirst).
  set (res := poll_cycle (traced_runtime Telegram.still_runtime)
                {| self := observed mon; world := started |}).
  assert (Hok : res.1 = Ok tt) by (vm_compute; reflexivity).
  assert (Hres : res = (Ok tt, res.2))
    by (rewrite <- Hok; apply surjective_pairing).
  destruct (Hfirst res.2 v0 Hres eq_refl) as (new & Htr & Hout).
  exists res.2, new. split; [exact Hres|]. split; [exact Htr | exact Hout].
Defined.

Lemma answering_HTTPError_is_RequestException :
  Telegram.HTTPError_is_RequestException (Q := Telegram.answering_requests).
Proof.
  intros code e. cbn. unfold Telegram.status_check.
  destruct (_ && _); [|done]. by intros [= <-].
Qed.

Lemma failed_delivery_does_not_stop_monitor_witness :
  let mon := fixed_monitor true true
               (Telegram.notifier_of (Q := Telegram.answering_requests)
                  Telegram.still_runtime Telegram.the_notifier) in
  ∃ (low : bool) (v' : list Z) (new : list event),
    poll_cycle (traced_runtime Telegram.still_runtime) (observe mon [500; 500] [])
    = (Ok tt, observe (with_status mon true low) v' new)
    ∧ notified "Power outage!" new = 1%nat.
Proof.
  intros mon.
  assert (Hnet : ∀ (url : string) (data : gmap string string) (v0 : list Z), ∃ v1,
             (∃ r, Telegram.post (Requests := Telegram.answering_requests)
                     url data v0 = (Ok r, v1))
             ∨ (∃ e, Telegram.post (Requests := Telegram.answering_requests)
                       url data v0 = (Raise e, v1)
                     ∧ Telegram.is_RequestException
                         (Requests := Telegram.answering_requests) e = true)).
  { intros url data [|code rest]; eexists; [right|left]; eauto. }
  destruct (failed_delivery_does_not_stop_monitor
              (Q := Telegram.answering_requests) Telegram.still_runtime
              Telegram.the_notifier mon [500; 500] [] eq_refl
              answering_HTTPError_is_RequestException Hnet)
    as (cur & low & v' & new & Hrun & Hread & Hout & _).
  1-9: intros; intros v; by eexists _, _.
  assert (Hcur : last_ups_on_battery_status
                   (self (poll_cycle (traced_runtime Telegram.still_runtime)
                            (observe mon [500; 500] [])).2) = true)
    by (vm_compute; reflexivity).
  rewrite Hrun in Hcur. cbn in Hcur. subst cur.
  exists low, v', new. split; [exact Hrun | exact Hout].
Defined.

Lemma monitor_ups_notices_follow_readings_witness :
  ∃ new : list event,
    trace (world (monitor_ups (traced_runtime interrupted_runtime) 3
                    (observe (fixed_monitor true true silent_notifier) tt [])).2)
    = new
    ∧ (length (readings new) ≤ 3)%nat
    ∧ filter (λ t, t ≠ status_title "Low battery!") (sent_titles new)
      = map status_title (Spec.transitions false (readings new)).
Proof.
  apply (monitor_ups_notices_follow_readings interrupted_runtime 3
           (fixed_monitor true true silent_notifier) tt []).
  apply silent_collaborators_return. intros msg v. by eexists _, _.
Defined.

End MonitorMore.
